(** * GoSanity MV-Realty backend: a shallow embedding of [main.go]

    The server keeps the package-level slice [properties] as an in-memory
    snapshot of the CMS collection, refreshes it with
    [fetchPropertiesFromSanity] and serves it through the two handlers
    [GetProperties] and [GetPropertyBySlug].

    Conventions of the embedding:
    - a Go slice is a [slice]: the nil slice is kept apart from the empty
      one, because [encoding/json] writes them differently;
    - a Go [map[string]T] is a [gmap string T], and a nil map is [None];
    - package-level state is passed explicitly ([State]);
    - what the Go standard library returns for a call that reaches outside
      the process (the network, the file system, the environment) is an
      input of the model. *)

From Stdlib Require Import ZArith String Ascii List SpecFloat.
From stdpp Require Import base option list strings gmap.

Set Warnings "-register-all".

Local Open Scope string_scope.
Local Open Scope list_scope.
Local Open Scope Z_scope.

(** ** Go values *)

(** A slice value: [nilSlice] is Go's [nil], [mkSlice l] an allocated slice
    holding [l] (possibly of length zero). *)
Inductive slice (A : Type) : Type :=
| nilSlice
| mkSlice (l : list A).
Arguments nilSlice {A}.
Arguments mkSlice {A} l.

Definition elems {A : Type} (s : slice A) : list A :=
  match s with
  | nilSlice => []
  | mkSlice l => l
  end.

Definition len {A : Type} (s : slice A) : nat := length (elems s).

(** [append(s, x)] always yields an allocated slice. *)
Definition append {A : Type} (s : slice A) (x : A) : slice A :=
  mkSlice (elems s ++ [x]).

(** Floating-point fields are carried, never computed on: an IEEE-754 value
    is kept as the standard library's [spec_float]. *)
Definition float32 : Type := spec_float.
Definition float64 : Type := spec_float.

Definition float_zero : spec_float := S754_zero false.

Definition is_finite (x : spec_float) : bool :=
  match x with
  | S754_zero _ | S754_finite _ _ _ => true
  | S754_infinity _ | S754_nan => false
  end.

(** ** The domain model (the struct declarations of [main.go]) *)

Record Slug := mkSlug {
  Slug_Current : string;
  Slug_Type : string
}.

Record Reference := mkReference {
  Reference_Ref : string;
  Reference_Type : string
}.

Record GeoLocation := mkGeoLocation {
  GeoLocation_Type : string;
  GeoLocation_Lat : float64;
  GeoLocation_Lng : float64
}.

Record Asset := mkAsset {
  Asset_Ref : string;
  Asset_Type : string
}.

Record SanityImage := mkSanityImage {
  SanityImage_Key : string;
  SanityImage_Type : string;
  SanityImage_Asset : Asset
}.

Record Facility := mkFacility {
  Facility_FacilityType : Reference;
  Facility_FacilityName : string;
  Facility_Description : string;
  Facility_Photos : slice SanityImage
}.

Record Property := mkProperty {
  Property_ID : string;
  Property_Title : string;
  Property_Slug : Slug;
  Property_Developer : Reference;
  Property_Description : string;
  Property_MapURL : string;
  Property_GeoLocation : GeoLocation;
  Property_MinPrice : float32;
  Property_MaxPrice : float32;
  Property_Facilities : slice Facility;
  Property_Photos : slice SanityImage;
  Property_Built : Z;
  Property_CreatedAt : string
}.

(** The zero value of [Property], what [var property Property] holds. *)
Definition zeroProperty : Property :=
  {| Property_ID := EmptyString;
     Property_Title := EmptyString;
     Property_Slug := mkSlug EmptyString EmptyString;
     Property_Developer := mkReference EmptyString EmptyString;
     Property_Description := EmptyString;
     Property_MapURL := EmptyString;
     Property_GeoLocation := mkGeoLocation EmptyString float_zero float_zero;
     Property_MinPrice := float_zero;
     Property_MaxPrice := float_zero;
     Property_Facilities := nilSlice;
     Property_Photos := nilSlice;
     Property_Built := 0;
     Property_CreatedAt := EmptyString |}.

(** ** JSON documents

    [json] is a JSON document as [encoding/json] reads or writes it.  A
    number records the Go type it is formatted from, since [float32],
    [float64] and [int] print differently; a number decoded into an
    [interface{}] is always a [Float64]. *)
Inductive number : Type :=
| Float64 (x : float64)
| Float32 (x : float32)
| Int (z : Z).

Inductive json : Type :=
| JNull
| JBool (b : bool)
| JNumber (n : number)
| JString (s : string)
| JArray (l : list json)
| JObject (fields : list (string * json)).

(** *** [json.Marshal] on the domain model

    Struct fields are written in declaration order under their [json:]
    tags.  A nil slice is written as [null], an allocated one as an array.
    A NaN or an infinity makes the whole call fail
    ([UnsupportedValueError]). *)
Module Marshal.

Definition float64_ (x : float64) : option json :=
  if is_finite x then Some (JNumber (Float64 x)) else None.

Definition float32_ (x : float32) : option json :=
  if is_finite x then Some (JNumber (Float32 x)) else None.

Definition int_ (z : Z) : option json := Some (JNumber (Int z)).

Definition string_ (s : string) : option json := Some (JString s).

(** The fields of a struct: the first failing field fails the object. *)
Fixpoint fields (fs : list (string * option json))
  : option (list (string * json)) :=
  match fs with
  | [] => Some []
  | (k, ov) :: rest =>
      match ov with
      | None => None
      | Some v =>
          match fields rest with
          | None => None
          | Some rest' => Some ((k, v) :: rest')
          end
      end
  end.

Definition struct_ (fs : list (string * option json)) : option json :=
  JObject <$> fields fs.

Fixpoint array_ {A : Type} (f : A -> option json) (l : list A)
  : option (list json) :=
  match l with
  | [] => Some []
  | x :: rest =>
      match f x with
      | None => None
      | Some v =>
          match array_ f rest with
          | None => None
          | Some rest' => Some (v :: rest')
          end
      end
  end.

Definition slice_ {A : Type} (f : A -> option json) (s : slice A)
  : option json :=
  match s with
  | nilSlice => Some JNull
  | mkSlice l => JArray <$> array_ f l
  end.

Definition slug (s : Slug) : option json :=
  struct_ [("current", string_ (Slug_Current s));
           ("_type", string_ (Slug_Type s))].

Definition reference (r : Reference) : option json :=
  struct_ [("_ref", string_ (Reference_Ref r));
           ("_type", string_ (Reference_Type r))].

Definition geoLocation (g : GeoLocation) : option json :=
  struct_ [("_type", string_ (GeoLocation_Type g));
           ("lat", float64_ (GeoLocation_Lat g));
           ("lng", float64_ (GeoLocation_Lng g))].

Definition asset (a : Asset) : option json :=
  struct_ [("_ref", string_ (Asset_Ref a));
           ("_type", string_ (Asset_Type a))].

Definition sanityImage (i : SanityImage) : option json :=
  struct_ [("_key", string_ (SanityImage_Key i));
           ("_type", string_ (SanityImage_Type i));
           ("asset", asset (SanityImage_Asset i))].

Definition facility (f : Facility) : option json :=
  struct_ [("facilityType", reference (Facility_FacilityType f));
           ("facilityName", string_ (Facility_FacilityName f));
           ("description", string_ (Facility_Description f));
           ("photos", slice_ sanityImage (Facility_Photos f))].

Definition property (p : Property) : option json :=
  struct_ [("_id", string_ (Property_ID p));
           ("title", string_ (Property_Title p));
           ("slug", slug (Property_Slug p));
           ("developer", reference (Property_Developer p));
           ("description", string_ (Property_Description p));
           ("mapUrl", string_ (Property_MapURL p));
           ("geoLocation", geoLocation (Property_GeoLocation p));
           ("minPrice", float32_ (Property_MinPrice p));
           ("maxPrice", float32_ (Property_MaxPrice p));
           ("facilities", slice_ facility (Property_Facilities p));
           ("photos", slice_ sanityImage (Property_Photos p));
           ("built", int_ (Property_Built p));
           ("createdAt", string_ (Property_CreatedAt p))].

Definition properties (s : slice Property) : option json :=
  slice_ property s.

End Marshal.

(** ** [net/http]: the response side *)

Definition StatusOK : Z := 200.
Definition StatusNotFound : Z := 404.

(** What a handler writes: both writers used by [main.go] end their output
    with a newline ([Encoder.Encode] and [fmt.Fprintln]). *)
Inductive chunk : Type :=
| JSONLine (doc : json)      (* the JSON text of [doc], then a newline *)
| TextLine (text : string).  (* [text], then a newline *)

(** The [http.ResponseWriter] of one request.  [rw_status = None] until
    the status line is written. *)
Record ResponseWriter := mkResponseWriter {
  rw_header : gmap string string;
  rw_status : option Z;
  rw_body : list chunk
}.

Definition newResponseWriter : ResponseWriter :=
  {| rw_header := ∅; rw_status := None; rw_body := [] |}.

Definition Header_Set (k v : string) (w : ResponseWriter) : ResponseWriter :=
  {| rw_header := <[k := v]> (rw_header w);
     rw_status := rw_status w;
     rw_body := rw_body w |}.

(** [w.WriteHeader(code)]: only the first call counts. *)
Definition WriteHeader (code : Z) (w : ResponseWriter) : ResponseWriter :=
  match rw_status w with
  | Some _ => w
  | None =>
      {| rw_header := rw_header w;
         rw_status := Some code;
         rw_body := rw_body w |}
  end.

(** [w.Write(data)]: the first write sends status 200 unless a status was
    sent before.  (Both handlers set Content-Type before they write, so the
    content sniffing of [net/http] never runs.) *)
Definition Write (c : chunk) (w : ResponseWriter) : ResponseWriter :=
  let w' := WriteHeader StatusOK w in
  {| rw_header := rw_header w';
     rw_status := rw_status w';
     rw_body := rw_body w' ++ [c] |}.

(** [json.NewEncoder(w).Encode(v)]: the value is marshalled first; on an
    error nothing is written (the handlers drop the error). *)
Definition Encode {A : Type} (marshal : A -> option json) (v : A)
    (w : ResponseWriter) : ResponseWriter :=
  match marshal v with
  | Some doc => Write (JSONLine doc) w
  | None => w
  end.

(** [http.Error(w, error, code)]. *)
Definition http_Error (error : string) (code : Z) (w : ResponseWriter)
    : ResponseWriter :=
  let w1 := Header_Set "Content-Type" "text/plain; charset=utf-8" w in
  let w2 := Header_Set "X-Content-Type-Options" "nosniff" w1 in
  let w3 := WriteHeader code w2 in
  Write (TextLine error) w3.

(** The response the client receives once the handler has returned: a
    handler that wrote no status line gets 200. *)
Record Response := mkResponse {
  resp_status : Z;
  resp_header : gmap string string;
  resp_body : list chunk
}.

Definition finish (w : ResponseWriter) : Response :=
  {| resp_status := default StatusOK (rw_status w);
     resp_header := rw_header w;
     resp_body := rw_body w |}.

(** The part of [*http.Request] the handlers look at: [mux.Vars(r)]. *)
Record Request := mkRequest {
  mux_Vars : gmap string string
}.

(** Indexing a Go map of strings: the zero value when the key is absent. *)
Definition index_string (m : gmap string string) (k : string) : string :=
  default EmptyString (m !! k).

(** ** Package-level state

    [properties] is the package-level [var properties []Property]; [logs]
    collects the lines given to the [log] package (without the time stamp
    the logger puts in front). *)
Record State := mkState {
  properties : slice Property;
  logs : list string
}.

(** The state at process start: [properties] is declared without a value,
    so it is the nil slice. *)
Definition initialState : State :=
  {| properties := nilSlice; logs := [] |}.

(** ** The handlers *)

(** [GetProperties] returns all properties. *)
Definition GetProperties (st : State) (w : ResponseWriter) (r : Request)
    : ResponseWriter :=
  let w := Header_Set "Content-Type" "application/json" w in
  Encode Marshal.properties (properties st) w.

(** The [for _, item := range properties] loop of [GetPropertyBySlug];
    falling out of the loop reaches the [http.Error] call. *)
Fixpoint GetPropertyBySlug_range (items : list Property) (slug : string)
    (w : ResponseWriter) : ResponseWriter :=
  match items with
  | [] => http_Error "Property not found" StatusNotFound w
  | item :: rest =>
      if String.eqb (Slug_Current (Property_Slug item)) slug then
        let w := Header_Set "Content-Type" "application/json" w in
        Encode Marshal.property item w
      else GetPropertyBySlug_range rest slug w
  end.

(** [GetPropertyBySlug] returns a single property by slug. *)
Definition GetPropertyBySlug (st : State) (w : ResponseWriter) (r : Request)
    : ResponseWriter :=
  let params := mux_Vars r in
  GetPropertyBySlug_range (elems (properties st)) (index_string params "slug") w.

(** The two routes, as a client sees them. *)
Definition serve_list (st : State) : Response :=
  finish (GetProperties st newResponseWriter (mkRequest ∅)).

Definition serve_slug (st : State) (slug : string) : Response :=
  finish (GetPropertyBySlug st newResponseWriter
            (mkRequest {[ "slug" := slug ]})).

(** ** [net/url]: [url.QueryEscape] *)

Definition upperhex (n : N) : ascii :=
  default "0"%char
    (list_ascii_of_string "0123456789ABCDEF" !! N.to_nat n).

(** The bytes [QueryEscape] leaves alone: letters, digits and [-_.~]. *)
Definition unreserved (c : ascii) : bool :=
  let n := N_of_ascii c in
  ((97 <=? n) && (n <=? 122) || (65 <=? n) && (n <=? 90)
   || (48 <=? n) && (n <=? 57)
   || (n =? 45) || (n =? 95) || (n =? 46) || (n =? 126))%N.

Fixpoint QueryEscape (s : string) : string :=
  match s with
  | EmptyString => EmptyString
  | String c rest =>
      if unreserved c then String c (QueryEscape rest)
      else if Ascii.eqb c " "%char then String "+"%char (QueryEscape rest)
      else
        let n := N_of_ascii c in
        String "%"%char
          (String (upperhex (N.shiftr n 4))
             (String (upperhex (N.land n 15)) (QueryEscape rest)))
  end.

(** ** Library results *)

(** A Go [(value, error)] pair; [Err] carries [err.Error()]. *)
Inductive result (A : Type) : Type :=
| Ok (a : A)
| Err (err : string).
Arguments Ok {A} a.
Arguments Err {A} err.

(** The bytes of a response body, as [encoding/json] classifies them before
    it looks at the target: [Rejected err] for bytes that [json.Unmarshal]
    refuses whatever the target built from [interface{}] is (a syntax
    error, or a number literal that does not fit a [float64]), and
    [Document doc] for the document the bytes spell. *)
Inductive bytes : Type :=
| Rejected (err : string)
| Document (doc : json).

(** [ioutil.ReadAll(resp.Body)]. *)
Inductive ReadAll : Type :=
| ReadErr (err : string)
| ReadOk (body : bytes).

(** The [*http.Response] of [http.Get], with what reading its body gives. *)
Record HttpResponse := mkHttpResponse {
  StatusCode : Z;
  Status : string;
  Body : ReadAll
}.

(** The network during one call: what [http.Get(url)] returns. *)
Definition Network : Type := string -> result HttpResponse.

(** *** [json.Unmarshal] into a [map[string]interface{}] *)

(** The Go name of a document's kind, as decode errors print it. *)
Definition kind_name (v : json) : string :=
  match v with
  | JNull => "null"
  | JBool _ => "bool"
  | JNumber _ => "number"
  | JString _ => "string"
  | JArray _ => "array"
  | JObject _ => "object"
  end.

(** The map an object decodes to: a later duplicate key overwrites an
    earlier one. *)
Definition object_map (fields : list (string * json)) : gmap string json :=
  foldl (fun m kv => <[kv.1 := kv.2]> m) ∅ fields.

(** [var result map[string]interface{}; json.Unmarshal(body, &result)]:
    an object allocates the map, [null] leaves it nil, and any other
    document is an [UnmarshalTypeError]. *)
Definition Unmarshal_map (body : bytes) : result (option (gmap string json)) :=
  match body with
  | Rejected err => Err err
  | Document JNull => Ok None
  | Document (JObject fields) => Ok (Some (object_map fields))
  | Document doc =>
      Err ("json: cannot unmarshal " +:+ kind_name doc
           +:+ " into Go value of type map[string]interface {}")
  end.

(** [m[k]] on a map that may be nil.  What Go yields is an [interface{}]:
    nil both for an absent key and for a key bound to [null]. *)
Definition index (m : option (gmap string json)) (k : string) : json :=
  match m with
  | None => JNull
  | Some m => default JNull (m !! k)
  end.

(** The type assertion [v.([]interface{})] in its two-result form. *)
Definition assert_array (v : json) : option (list json) :=
  match v with
  | JArray l => Some l
  | _ => None
  end.

(** ** The [log] and [fmt] packages *)

(** [Println] separates its operands with one space. *)
Fixpoint Sprintln (operands : list string) : string :=
  match operands with
  | [] => EmptyString
  | [s] => s
  | s :: rest => s +:+ " " +:+ Sprintln rest
  end.

Definition log_Println (operands : list string) (st : State) : State :=
  {| properties := properties st;
     logs := logs st ++ [Sprintln operands] |}.

(** [log.Printf], given the formatted line. *)
Definition log_Printf (line : string) (st : State) : State :=
  {| properties := properties st;
     logs := logs st ++ [line] |}.

Definition set_properties (new : slice Property) (st : State) : State :=
  {| properties := new; logs := logs st |}.

(** ** The refresher *)

(** The double quote, for the query text. *)
Definition dquote : string := String "034"%char EmptyString.

(** The GROQ text of [query]: every document whose [_type] is the string
    [property]. *)
Definition query : string :=
  "*[_type == " +:+ dquote +:+ "property" +:+ dquote +:+ "]".

Section Refresher.

(** One array element on its way into a [Property]:
    [json.Marshal(propertyData)] followed by
    [json.Unmarshal(propertyBytes, &property)] on a fresh zero
    [property].  [Ok p] is [err == nil] with [property] equal to [p];
    [Err e] is a non-nil [err].  (The marshalling step cannot fail on a
    value that came out of [json.Unmarshal], and the code drops its
    error.)  The decoder belongs to [encoding/json]; the refresher is
    verified for every decoder. *)
Variable unmarshalProperty : json -> result Property.

(** The [for _, propertyData := range propertiesData] loop: the state
    carries the log, [newProperties] is the local slice. *)
Fixpoint decode_range (propertiesData : list json)
    (newProperties : slice Property) (st : State)
    : slice Property * State :=
  match propertiesData with
  | [] => (newProperties, st)
  | propertyData :: rest =>
      match unmarshalProperty propertyData with
      | Err err =>
          decode_range rest newProperties
            (log_Println ["Failed to unmarshal property:"; err] st)
      | Ok property =>
          decode_range rest (append newProperties property) st
      end
  end.

(** [fetchPropertiesFromSanity] fetches properties from Sanity and
    updates the in-memory [properties] slice.  One [match] per early
    [return]; the deferred [resp.Body.Close()] changes nothing the model
    keeps. *)
Definition fetchPropertiesFromSanity (http_Get : Network)
    (sanityAPI : string) (st : State) : State :=
  let encodedQuery := QueryEscape query in
  let url := sanityAPI +:+ encodedQuery in
  match http_Get url with
  | Err err =>
      log_Println ["Failed to fetch properties from Sanity:"; err] st
  | Ok resp =>
      if negb (StatusCode resp =? StatusOK) then
        log_Println ["Sanity API returned non-200 status:"; Status resp] st
      else
        match Body resp with
        | ReadErr err =>
            log_Println ["Failed to read Sanity API response:"; err] st
        | ReadOk body =>
            match Unmarshal_map body with
            | Err err =>
                log_Println ["Failed to parse JSON from Sanity API:"; err] st
            | Ok result =>
                match assert_array (index result "result") with
                | Some propertiesData =>
                    let '(newProperties, st) :=
                      decode_range propertiesData (mkSlice []) st in
                    let st := set_properties newProperties st in
                    log_Println
                      ["Properties successfully updated from Sanity."] st
                | None =>
                    log_Println
                      ["No properties found in Sanity API response."] st
                end
            end
        end
  end.

(** One turn of the goroutine's [for] loop in [main].  [elapsed] is the
    printed [time.Since(start)]. *)
Record Cycle := mkCycle {
  cycle_net : Network;
  cycle_elapsed : string
}.

Definition refreshCycle (sanityAPI : string) (c : Cycle) (st : State)
    : State :=
  let st := log_Println ["Starting property fetch from Sanity..."] st in
  let st := fetchPropertiesFromSanity (cycle_net c) sanityAPI st in
  let st :=
    log_Printf ("Property fetch completed in " +:+ cycle_elapsed c) st in
  log_Println ["Next update will occur in 1 hour."] st.

(** The first [length cycles] turns of the loop (it never ends by
    itself; [time.Sleep] separates the turns). *)
Definition refresher (sanityAPI : string) (cycles : list Cycle)
    (st : State) : State :=
  foldl (fun st c => refreshCycle sanityAPI c st) st cycles.

(** *** Vocabulary for the properties of one refresh *)

(** The URL the refresher asks for. *)
Definition request_url (sanityAPI : string) : string :=
  sanityAPI +:+ QueryEscape query.

(** "The upstream fetch fails": a transport error, a non-200 status, a
    body-read failure, or a top-level JSON decode failure. *)
Inductive UpstreamFails : result HttpResponse -> Prop :=
| fails_transport (err : string) :
    UpstreamFails (Err err)
| fails_status (resp : HttpResponse) :
    StatusCode resp <> StatusOK ->
    UpstreamFails (Ok resp)
| fails_read (resp : HttpResponse) (err : string) :
    Body resp = ReadErr err ->
    UpstreamFails (Ok resp)
| fails_decode (resp : HttpResponse) (body : bytes) (err : string) :
    Body resp = ReadOk body ->
    Unmarshal_map body = Err err ->
    UpstreamFails (Ok resp).

(** "The upstream answers 200 with this JSON object at top level". *)
Definition AnswersObject (r : result HttpResponse)
    (fields : list (string * json)) : Prop :=
  exists resp : HttpResponse,
    r = Ok resp /\ StatusCode resp = StatusOK
    /\ Body resp = ReadOk (Document (JObject fields)).

(** Whether an element decodes into a [Property]. *)
Definition decodes (propertyData : json) : bool :=
  match unmarshalProperty propertyData with
  | Ok _ => true
  | Err _ => false
  end.

(** The properties of the elements that decode, in the array's order. *)
Definition decoded (propertiesData : list json) : list Property :=
  omap (fun propertyData =>
          match unmarshalProperty propertyData with
          | Ok property => Some property
          | Err _ => None
          end) propertiesData.

(** The log lines of the elements that do not, in the array's order. *)
Definition decode_failures (propertiesData : list json) : list string :=
  omap (fun propertyData =>
          match unmarshalProperty propertyData with
          | Ok _ => None
          | Err err => Some (Sprintln ["Failed to unmarshal property:"; err])
          end) propertiesData.

End Refresher.

(** ** Process start: [main] *)

(** What the process finds when it starts: the outcome of reading and
    parsing the [.env] file of the working directory (its bindings, or the
    error of [godotenv.Load]), the process environment, and what becomes of
    the listening call. *)
Record Startup := mkStartup {
  dotenv : result (gmap string string);
  environ : gmap string string;
  listen_error : option string
    (* [Some err]: [http.ListenAndServe] comes back with [err] (it has no
       other way to come back); [None]: the server goes on serving *)
}.

(** [godotenv.Load()]: a binding of the file is exported unless the
    variable is already set in the environment. *)
Definition godotenv_Load (os : Startup) : result (gmap string string) :=
  match dotenv os with
  | Err err => Err err
  | Ok file => Ok (environ os ∪ file)
  end.

(** [os.Getenv(key)]: empty when the variable is not set. *)
Definition os_Getenv (env : gmap string string) (key : string) : string :=
  default EmptyString (env !! key).

Inductive Handler : Type :=
| HGetProperties
| HGetPropertyBySlug.

(** What [main] does that is visible from outside its own frame. *)
Inductive Event : Type :=
| EvFatal (line : string)
    (* [log.Fatal]: the line is logged, then [os.Exit(1)] *)
| EvHandleFunc (path method : string) (h : Handler)
| EvGoRefresher (sanityAPI : string)
    (* [go func() { for { ... } }()] *)
| EvPrintln (line : string)
| EvListenAndServe (addr : string).
    (* [http.ListenAndServe]: bind the socket and serve *)

(** The events so far, and the value when the process is still running. *)
Definition Proc (A : Type) : Type := list Event * option A.

#[local] Instance Proc_ret : MRet Proc := fun A a => ([], Some a).
#[local] Instance Proc_bind : MBind Proc := fun A B k m =>
  match m with
  | (tr, None) => (tr, None)
  | (tr, Some a) => let '(tr', r) := k a in (tr ++ tr', r)
  end.

Definition emit (e : Event) : Proc unit := ([e], Some tt).

Definition log_Fatal {A : Type} (line : string) : Proc A :=
  ([EvFatal line], None).

(** [main].  Building the router and the CORS wrapper only makes values;
    the two [HandleFunc] calls, the [go] statement, the [fmt.Println] and
    the listening call are the events. *)
Definition main (os : Startup) : Proc unit :=
  env ← match godotenv_Load os with
        | Err err => log_Fatal ("Error loading .env file:" +:+ err)
        | Ok env => mret env
        end;
  let sanityAPI := os_Getenv env "SANITY_API_URL" in
  _ ← (if decide (sanityAPI = EmptyString)
       then log_Fatal "SANITY_API_URL is not set in the environment"
       else mret tt);
  _ ← emit (EvHandleFunc "/properties" "GET" HGetProperties);
  _ ← emit (EvHandleFunc "/properties/{slug}" "GET" HGetPropertyBySlug);
  _ ← emit (EvGoRefresher sanityAPI);
  let port := os_Getenv env "PORT" in
  let port := if decide (port = EmptyString) then "8000" else port in
  _ ← emit (EvPrintln (Sprintln ["Server is running on port:"; port]));
  _ ← emit (EvListenAndServe (":" +:+ port));
  match listen_error os with
  | Some err => log_Fatal err
  | None => mret tt
  end.

(** The events of a run, and whether it ended in [log.Fatal]. *)
Definition trace (os : Startup) : list Event := (main os).1.

Definition is_listen (e : Event) : bool :=
  match e with
  | EvListenAndServe _ => true
  | _ => false
  end.


(** ** The responses the specification names *)

(** Status 200, content type [application/json], and the line the encoder
    wrote ([None]: the marshaller failed and nothing was written). *)
Definition json_response (doc : option json) : Response :=
  {| resp_status := StatusOK;
     resp_header := {[ "Content-Type" := "application/json" ]};
     resp_body := match doc with
                  | Some doc => [JSONLine doc]
                  | None => []
                  end |}.

(** The response of [http.Error]: plain text under the given status. *)
Definition text_response (code : Z) (text : string) : Response :=
  {| resp_status := code;
     resp_header :=
       <[ "X-Content-Type-Options" := "nosniff" ]>
         {[ "Content-Type" := "text/plain; charset=utf-8" ]};
     resp_body := [TextLine text] |}.

Definition slug_of (p : Property) : string := Slug_Current (Property_Slug p).

(** Every float of the property is a number (neither NaN nor infinite),
    as is the case for whatever a JSON document was decoded into. *)
Definition finite_floats (p : Property) : bool :=
  is_finite (GeoLocation_Lat (Property_GeoLocation p))
  && is_finite (GeoLocation_Lng (Property_GeoLocation p))
  && is_finite (Property_MinPrice p)
  && is_finite (Property_MaxPrice p).

(** ** Sample data

    A decoder to run the model on: the part of the struct decoder of
    [encoding/json] that reads [_id], [title] and [slug] from an object
    whose keys are spelled as in the struct tags.  It is only used on the
    sample documents below. *)
Module Sample.

Definition field (fields : list (string * json)) (k : string) : json :=
  default JNull (object_map fields !! k).

Definition type_error (v : json) (target : string) : string :=
  "json: cannot unmarshal " +:+ kind_name v +:+ " into Go " +:+ target.

Definition decode_string (v : json) (path : string) : result string :=
  match v with
  | JNull => Ok EmptyString
  | JString s => Ok s
  | _ => Err (type_error v ("struct field " +:+ path +:+ " of type string"))
  end.

Definition decode_slug (v : json) : result Slug :=
  match v with
  | JNull => Ok (mkSlug EmptyString EmptyString)
  | JObject fields =>
      match decode_string (field fields "current") "Property.slug.current",
            decode_string (field fields "_type") "Property.slug._type" with
      | Ok c, Ok t => Ok (mkSlug c t)
      | Err e, _ | _, Err e => Err e
      end
  | _ => Err (type_error v "struct field Property.slug of type main.Slug")
  end.

Definition with_id_title_slug (id title : string) (s : Slug) : Property :=
  {| Property_ID := id;
     Property_Title := title;
     Property_Slug := s;
     Property_Developer := Property_Developer zeroProperty;
     Property_Description := Property_Description zeroProperty;
     Property_MapURL := Property_MapURL zeroProperty;
     Property_GeoLocation := Property_GeoLocation zeroProperty;
     Property_MinPrice := Property_MinPrice zeroProperty;
     Property_MaxPrice := Property_MaxPrice zeroProperty;
     Property_Facilities := Property_Facilities zeroProperty;
     Property_Photos := Property_Photos zeroProperty;
     Property_Built := Property_Built zeroProperty;
     Property_CreatedAt := Property_CreatedAt zeroProperty |}.

Definition unmarshalProperty (v : json) : result Property :=
  match v with
  | JNull => Ok zeroProperty
  | JObject fields =>
      match decode_string (field fields "_id") "Property._id",
            decode_string (field fields "title") "Property.title",
            decode_slug (field fields "slug") with
      | Ok id, Ok title, Ok s => Ok (with_id_title_slug id title s)
      | Err e, _, _ | _, Err e, _ | _, _, Err e => Err e
      end
  | _ => Err (type_error v "value of type main.Property")
  end.

Definition doc (id title slug : string) : json :=
  JObject [("_id", JString id);
           ("title", JString title);
           ("slug", JObject [("current", JString slug);
                             ("_type", JString "slug")])].

Definition gardenHeights : json := doc "p1" "Garden Heights" "garden-heights".
Definition riverside : json := doc "p2" "Riverside" "riverside".
Definition gardenHeights2 : json := doc "p3" "Garden Heights II" "garden-heights".

(** Two elements no decoder accepts as a [Property]. *)
Definition badTitle : json :=
  JObject [("_id", JString "p4"); ("title", JNumber (Float64 float_zero))].
Definition notAnObject : json := JString "oops".

Definition p_gardenHeights : Property :=
  with_id_title_slug "p1" "Garden Heights" (mkSlug "garden-heights" "slug").
Definition p_riverside : Property :=
  with_id_title_slug "p2" "Riverside" (mkSlug "riverside" "slug").
Definition p_gardenHeights2 : Property :=
  with_id_title_slug "p3" "Garden Heights II" (mkSlug "garden-heights" "slug").

Definition api : string := "https://cms.example/v1/data/query/production?query=".

(** An upstream that answers every request with the same response. *)
Definition answers (resp : HttpResponse) : Network := fun _ => Ok resp.

Definition ok_body (doc : json) : HttpResponse :=
  {| StatusCode := 200; Status := "200 OK"; Body := ReadOk (Document doc) |}.

Definition mixed : list json :=
  [gardenHeights; badTitle; riverside; notAnObject; gardenHeights2].

Definition upstream_mixed : Network :=
  answers (ok_body (JObject [("ms", JNumber (Float64 float_zero));
                             ("result", JArray mixed)])).

Definition upstream_down : Network :=
  fun _ => Err "dial tcp: connection refused".

Definition upstream_no_result : Network :=
  answers (ok_body (JObject [("error", JString "query failed")])).

Definition upstream_500 : Network :=
  answers {| StatusCode := 500;
             Status := "500 Internal Server Error";
             Body := ReadOk (Document (JObject [("result", JArray mixed)])) |}.

Definition upstream_cut : Network :=
  answers {| StatusCode := 200;
             Status := "200 OK";
             Body := ReadErr "unexpected EOF" |}.

Definition upstream_html : Network :=
  answers {| StatusCode := 200;
             Status := "200 OK";
             Body := ReadOk (Rejected
               "invalid character '<' looking for beginning of value") |}.

Definition upstream_empty : Network :=
  answers (ok_body (JObject [("result", JArray [])])).

Definition upstream_null_result : Network :=
  answers (ok_body (JObject [("result", JNull)])).

Definition served : State :=
  {| properties := mkSlice [p_gardenHeights; p_riverside; p_gardenHeights2];
     logs := [] |}.

Definition os_ok : Startup :=
  {| dotenv := Ok {[ "SANITY_API_URL" := api ]};
     environ := ∅;
     listen_error := None |}.

Definition os_no_url : Startup :=
  {| dotenv := Ok {[ "PORT" := "9000" ]};
     environ := ∅;
     listen_error := None |}.

Definition os_port_taken : Startup :=
  {| dotenv := Ok ∅;
     environ := {[ "SANITY_API_URL" := api; "PORT" := "9000" ]};
     listen_error := Some "listen tcp :9000: bind: address already in use" |}.

End Sample.

(** ** Vocabulary for sequences of refreshes and for reading responses *)

(** The answer takes the refresher to the type assertion, and [result]
    holds this array. *)
Definition Delivers (r : result HttpResponse) (propertiesData : list json)
    : Prop :=
  exists (resp : HttpResponse) (body : bytes)
         (result : option (gmap string json)),
    r = Ok resp /\ StatusCode resp = StatusOK /\ Body resp = ReadOk body
    /\ Unmarshal_map body = Ok result
    /\ index result "result" = JArray propertiesData.

(** The answer decodes at top level, but [result] holds no array. *)
Definition NoArray (r : result HttpResponse) : Prop :=
  exists (resp : HttpResponse) (body : bytes)
         (result : option (gmap string json)),
    r = Ok resp /\ StatusCode resp = StatusOK /\ Body resp = ReadOk body
    /\ Unmarshal_map body = Ok result
    /\ forall l, index result "result" <> JArray l.

(** The answer brings no new list: the fetch fails, or there is no array. *)
Definition DeliversNothing (r : result HttpResponse) : Prop :=
  UpstreamFails r \/ NoArray r.

(** Reading a member of a JSON object ([null] when there is none). *)
Definition json_field (k : string) (v : json) : json :=
  match v with
  | JObject fields => default JNull (object_map fields !! k)
  | _ => JNull
  end.

(** Whether a character may stand unescaped in a query string, or is one of
    the two marks the escaping itself writes. *)
Definition query_safe (c : ascii) : bool :=
  unreserved c || Ascii.eqb c "+"%char || Ascii.eqb c "%"%char.

(** The port [main] listens on, given the environment after [.env]. *)
Definition listen_port (env : gmap string string) : string :=
  match env !! "PORT" with
  | None => "8000"
  | Some p => if decide (p = EmptyString) then "8000" else p
  end.

(** The two route registrations of [main]. *)
Definition route_list : Event :=
  EvHandleFunc "/properties" "GET" HGetProperties.
Definition route_slug : Event :=
  EvHandleFunc "/properties/{slug}" "GET" HGetPropertyBySlug.

(** ** The documents of the nested values, and path parameters *)

(** What the encoder writes for a slice of values that it cannot refuse:
    [null] for the nil slice, the array of the documents otherwise. *)
Definition slice_document {A : Type} (f : A -> json) (s : slice A) : json :=
  match s with
  | nilSlice => JNull
  | mkSlice l => JArray (List.map f l)
  end.

(** The document of a [SanityImage], member by member. *)
Definition image_document (i : SanityImage) : json :=
  JObject
    [("_key", JString (SanityImage_Key i));
     ("_type", JString (SanityImage_Type i));
     ("asset",
      JObject [("_ref", JString (Asset_Ref (SanityImage_Asset i)));
               ("_type", JString (Asset_Type (SanityImage_Asset i)))])].

(** The document of a [Facility], member by member. *)
Definition facility_document (f : Facility) : json :=
  JObject
    [("facilityType",
      JObject [("_ref", JString (Reference_Ref (Facility_FacilityType f)));
               ("_type", JString (Reference_Type (Facility_FacilityType f)))]);
     ("facilityName", JString (Facility_FacilityName f));
     ("description", JString (Facility_Description f));
     ("photos", slice_document image_document (Facility_Photos f))].

Fixpoint has_slash (s : string) : bool :=
  match s with
  | EmptyString => false
  | String c rest => Ascii.eqb c "/"%char || has_slash rest
  end.

(** The strings a request can carry as the [{slug}] of the route
    [/properties/{slug}]: the variable matches one non-empty path segment,
    and the router redirects a path with a [.] or [..] segment to its
    cleaned form instead of calling the handler. *)
Definition path_parameter (slug : string) : bool :=
  negb (String.eqb slug EmptyString)
  && negb (has_slash slug)
  && negb (String.eqb slug ".")
  && negb (String.eqb slug "..").

(** [GET /properties/<segment>] through the router: the handler is called
    with the segment as [slug] when the segment is a path parameter;
    otherwise the router answers by itself ([None]: not the handler's
    response). *)
Definition route_GetPropertyBySlug (st : State) (segment : string)
    : option Response :=
  if path_parameter segment then Some (serve_slug st segment) else None.

(** * Properties *)

(** ** Sanity checks of the library models *)

Example QueryEscape_query :
  QueryEscape query = "%2A%5B_type+%3D%3D+%22property%22%5D".
Proof. reflexivity. Qed.

Example object_map_last_wins :
  object_map [("k", JBool true); ("k", JBool false)] !! "k" = Some (JBool false).
Proof. reflexivity. Qed.

Example Unmarshal_map_array :
  Unmarshal_map (Document (JArray [])) =
  Err "json: cannot unmarshal array into Go value of type map[string]interface {}".
Proof. reflexivity. Qed.

Example Unmarshal_map_null : Unmarshal_map (Document JNull) = Ok None.
Proof. reflexivity. Qed.

(** ** The marshaller *)

Lemma marshal_images_total (l : list SanityImage) :
  exists docs, Marshal.array_ Marshal.sanityImage l = Some docs.
Proof.
  induction l as [|i l [docs IH]]; simpl.
  - by eexists.
  - rewrite IH. by eexists.
Qed.

Lemma marshal_image_slice_total (s : slice SanityImage) :
  exists doc, Marshal.slice_ Marshal.sanityImage s = Some doc.
Proof.
  destruct s as [|l]; simpl.
  - by eexists.
  - destruct (marshal_images_total l) as [docs ->]. by eexists.
Qed.

Lemma marshal_facility_total (f : Facility) :
  exists doc, Marshal.facility f = Some doc.
Proof.
  unfold Marshal.facility, Marshal.struct_. simpl.
  destruct (marshal_image_slice_total (Facility_Photos f)) as [doc ->].
  by eexists.
Qed.

Lemma marshal_facilities_total (s : slice Facility) :
  exists doc, Marshal.slice_ Marshal.facility s = Some doc.
Proof.
  destruct s as [|l]; simpl; [by eexists|].
  assert (exists docs, Marshal.array_ Marshal.facility l = Some docs) as [docs ->].
  { induction l as [|f l [docs IH]]; simpl; [by eexists|].
    destruct (marshal_facility_total f) as [doc ->]. rewrite IH. by eexists. }
  by eexists.
Qed.

(** [json.Marshal] accepts every property whose floats are numbers. *)
Lemma marshal_property_finite (p : Property) :
  finite_floats p = true -> exists doc, Marshal.property p = Some doc.
Proof.
  unfold finite_floats. rewrite !andb_true_iff. intros [[[Hlat Hlng] Hmin] Hmax].
  unfold Marshal.property, Marshal.struct_, Marshal.geoLocation,
    Marshal.float64_, Marshal.float32_. simpl.
  rewrite Hlat, Hlng, Hmin, Hmax. simpl.
  destruct (marshal_facilities_total (Property_Facilities p)) as [d1 ->].
  destruct (marshal_image_slice_total (Property_Photos p)) as [d2 ->].
  simpl. by eexists.
Qed.

(** ** The handlers *)

Lemma finish_Encode {A : Type} (marshal : A -> option json) (v : A) :
  finish (Encode marshal v
            (Header_Set "Content-Type" "application/json" newResponseWriter))
  = json_response (marshal v).
Proof.
  unfold Encode, json_response. destruct (marshal v); reflexivity.
Qed.

Lemma finish_http_Error (text : string) (code : Z) :
  finish (http_Error text code newResponseWriter) = text_response code text.
Proof. reflexivity. Qed.

(** The list route answers with the encoder's line for the slice, whatever
    the slice. *)
Lemma serve_list_response (st : State) :
  serve_list st = json_response (Marshal.properties (properties st)).
Proof. apply finish_Encode. Qed.

(** The loop stops at the first item whose slug matches. *)
Lemma GetPropertyBySlug_range_first (before after : list Property)
    (p : Property) (slug : string) (w : ResponseWriter) :
  (forall q, q ∈ before -> slug_of q <> slug) ->
  slug_of p = slug ->
  GetPropertyBySlug_range (before ++ p :: after) slug w
  = Encode Marshal.property p (Header_Set "Content-Type" "application/json" w).
Proof.
  intros Hbefore Hp.
  induction before as [|q before IH]; simpl.
  - apply String.eqb_eq in Hp. fold (slug_of p). by rewrite Hp.
  - assert (slug_of q <> slug) as Hq by (apply Hbefore; left).
    apply String.eqb_neq in Hq. fold (slug_of q). rewrite Hq.
    apply IH. intros r Hr. apply Hbefore. by right.
Qed.

(** It reaches [http.Error] when no item matches. *)
Lemma GetPropertyBySlug_range_none (items : list Property) (slug : string)
    (w : ResponseWriter) :
  (forall q, q ∈ items -> slug_of q <> slug) ->
  GetPropertyBySlug_range items slug w
  = http_Error "Property not found" StatusNotFound w.
Proof.
  intros Hnone.
  induction items as [|q items IH]; simpl; [reflexivity|].
  assert (slug_of q <> slug) as Hq by (apply Hnone; left).
  apply String.eqb_neq in Hq. fold (slug_of q). rewrite Hq.
  apply IH. intros r Hr. apply Hnone. by right.
Qed.

(** A list with a matching item splits at its first matching item. *)
Lemma first_match_split (items : list Property) (slug : string) :
  (exists p, p ∈ items /\ slug_of p = slug) ->
  exists before p after,
    items = before ++ p :: after
    /\ slug_of p = slug
    /\ forall q, q ∈ before -> slug_of q <> slug.
Proof.
  induction items as [|q items IH]; intros (p & Hin & Hp).
  - by apply elem_of_nil in Hin.
  - destruct (decide (slug_of q = slug)) as [Hq|Hq].
    + exists [], q, items. split_and!; [done|done|].
      intros r Hr. by apply elem_of_nil in Hr.
    + apply elem_of_cons in Hin as [->|Hin]; [done|].
      destruct IH as (before & p' & after & -> & Hp' & Hbefore); [by eauto|].
      exists (q :: before), p', after. split_and!; [done|done|].
      intros r Hr. apply elem_of_cons in Hr as [->|Hr]; [done|by apply Hbefore].
Qed.

Lemma serve_slug_unfold (st : State) (slug : string) :
  serve_slug st slug
  = finish (GetPropertyBySlug_range (elems (properties st)) slug
              newResponseWriter).
Proof.
  unfold serve_slug, GetPropertyBySlug, index_string. simpl.
  by rewrite lookup_singleton_eq.
Qed.

(** Both routes read nothing but [properties]. *)
Lemma serve_list_ext (st st' : State) :
  properties st = properties st' -> serve_list st = serve_list st'.
Proof. intros H. by rewrite !serve_list_response, H. Qed.

Lemma serve_slug_ext (st st' : State) (slug : string) :
  properties st = properties st' -> serve_slug st slug = serve_slug st' slug.
Proof. intros H. by rewrite !serve_slug_unfold, H. Qed.

(** Status and content type of the list route do not depend on the
    snapshot; an allocated empty slice is written as the empty array. *)
Lemma GetProperties_status_and_type (st : State) :
  resp_status (serve_list st) = 200
  /\ resp_header (serve_list st) !! "Content-Type" = Some "application/json".
Proof. by rewrite serve_list_response. Qed.

Lemma GetProperties_allocated_empty (st : State) :
  properties st = mkSlice [] ->
  serve_list st = json_response (Some (JArray [])).
Proof. intros H. by rewrite serve_list_response, H. Qed.

(** C5, evaluated on the code.  The specification asks for the empty JSON
    array from [GET /properties] whenever the snapshot is empty, the initial
    state included.  Before the first successful refresh [properties] is the nil
    slice of its declaration, and the encoder writes a nil slice as [null]:
    the response is 200 with content type [application/json], but its body
    is the line [null], not the line [[]].  (The refresh path allocates its
    slice with a composite literal, so an empty snapshot it installs is
    written as [[]]: see [GetProperties_allocated_empty].) *)
Theorem GetProperties_initial_state_null :
  len (properties initialState) = 0%nat
  /\ serve_list initialState = json_response (Some JNull)
  /\ resp_body (serve_list initialState) <> [JSONLine (JArray [])].
Proof. split_and!; [reflexivity|reflexivity|discriminate]. Qed.

(** The encoder writes every member of a value that holds no float. *)
Lemma marshal_array_map {A : Type} (f : A -> option json) (g : A -> json)
    (l : list A) :
  (forall x, f x = Some (g x)) ->
  Marshal.array_ f l = Some (List.map g l).
Proof.
  intros Hfg. induction l as [|x l IH]; simpl; [done|].
  by rewrite Hfg, IH.
Qed.

Lemma marshal_slice_document {A : Type} (f : A -> option json)
    (g : A -> json) (s : slice A) :
  (forall x, f x = Some (g x)) ->
  Marshal.slice_ f s = Some (slice_document g s).
Proof.
  intros Hfg. destruct s as [|l]; simpl; [done|].
  by rewrite (marshal_array_map f g l Hfg).
Qed.

Lemma marshal_image_document (i : SanityImage) :
  Marshal.sanityImage i = Some (image_document i).
Proof. reflexivity. Qed.

Lemma marshal_facility_document (f : Facility) :
  Marshal.facility f = Some (facility_document f).
Proof.
  unfold Marshal.facility, Marshal.struct_. simpl.
  by rewrite (marshal_slice_document _ _ _ marshal_image_document).
Qed.

(** The encoder's document of a property whose floats are numbers: the
    thirteen members under their tags, in declaration order. *)
Lemma marshal_property_document (p : Property) :
  finite_floats p = true ->
  Marshal.property p
  = Some (JObject
      [("_id", JString (Property_ID p));
       ("title", JString (Property_Title p));
       ("slug",
        JObject [("current", JString (Slug_Current (Property_Slug p)));
                 ("_type", JString (Slug_Type (Property_Slug p)))]);
       ("developer",
        JObject [("_ref", JString (Reference_Ref (Property_Developer p)));
                 ("_type", JString (Reference_Type (Property_Developer p)))]);
       ("description", JString (Property_Description p));
       ("mapUrl", JString (Property_MapURL p));
       ("geoLocation",
        JObject
          [("_type", JString (GeoLocation_Type (Property_GeoLocation p)));
           ("lat", JNumber (Float64 (GeoLocation_Lat (Property_GeoLocation p))));
           ("lng", JNumber (Float64 (GeoLocation_Lng (Property_GeoLocation p))))]);
       ("minPrice", JNumber (Float32 (Property_MinPrice p)));
       ("maxPrice", JNumber (Float32 (Property_MaxPrice p)));
       ("facilities", slice_document facility_document (Property_Facilities p));
       ("photos", slice_document image_document (Property_Photos p));
       ("built", JNumber (Int (Property_Built p)));
       ("createdAt", JString (Property_CreatedAt p))]).
Proof.
  unfold finite_floats. rewrite !andb_true_iff. intros [[[Hlat Hlng] Hmin] Hmax].
  unfold Marshal.property, Marshal.struct_, Marshal.geoLocation,
    Marshal.float64_, Marshal.float32_. simpl.
  rewrite Hlat, Hlng, Hmin, Hmax. simpl.
  rewrite (marshal_slice_document _ _ _ marshal_facility_document).
  by rewrite (marshal_slice_document _ _ _ marshal_image_document).
Qed.

(** C6.  For every slug path parameter: when some property of the snapshot
    has the slug, [GET /properties/{slug}] answers with status 200, content
    type [application/json] and the encoder's line for a property of the
    snapshot that has this slug; when no property of the snapshot has it,
    the answer is status 404 with the plain-text line [Property not found].
    The encoder's line is the full property as a JSON object: the thirteen
    members [_id], [title], [slug], [developer], [description], [mapUrl],
    [geoLocation], [minPrice], [maxPrice], [facilities], [photos], [built]
    and [createdAt], each with the value the property holds, nested values
    member by member.  (That is so whenever the floats of the property are
    numbers, which is all a JSON document decodes to.) *)
Theorem GetPropertyBySlug_found_or_404 (st : State) (slug : string) :
  ((exists p, p ∈ elems (properties st) /\ slug_of p = slug) ->
   exists p,
     p ∈ elems (properties st) /\ slug_of p = slug
     /\ serve_slug st slug = json_response (Marshal.property p)
     /\ (finite_floats p = true ->
         serve_slug st slug
         = json_response (Some (JObject
             [("_id", JString (Property_ID p));
              ("title", JString (Property_Title p));
              ("slug",
               JObject
                 [("current", JString (Slug_Current (Property_Slug p)));
                  ("_type", JString (Slug_Type (Property_Slug p)))]);
              ("developer",
               JObject
                 [("_ref", JString (Reference_Ref (Property_Developer p)));
                  ("_type", JString (Reference_Type (Property_Developer p)))]);
              ("description", JString (Property_Description p));
              ("mapUrl", JString (Property_MapURL p));
              ("geoLocation",
               JObject
                 [("_type",
                   JString (GeoLocation_Type (Property_GeoLocation p)));
                  ("lat",
                   JNumber
                     (Float64 (GeoLocation_Lat (Property_GeoLocation p))));
                  ("lng",
                   JNumber
                     (Float64 (GeoLocation_Lng (Property_GeoLocation p))))]);
              ("minPrice", JNumber (Float32 (Property_MinPrice p)));
              ("maxPrice", JNumber (Float32 (Property_MaxPrice p)));
              ("facilities",
               slice_document facility_document (Property_Facilities p));
              ("photos", slice_document image_document (Property_Photos p));
              ("built", JNumber (Int (Property_Built p)));
              ("createdAt", JString (Property_CreatedAt p))]))))
  /\ ((forall p, p ∈ elems (properties st) -> slug_of p <> slug) ->
      serve_slug st slug = text_response 404 "Property not found").
Proof.
  rewrite serve_slug_unfold. split.
  - intros Hsome.
    destruct (first_match_split _ _ Hsome)
      as (before & p & after & Hitems & Hp & Hbefore).
    assert (finish (GetPropertyBySlug_range (elems (properties st)) slug
                      newResponseWriter)
            = json_response (Marshal.property p)) as Hresp.
    { rewrite Hitems, (GetPropertyBySlug_range_first _ _ _ _ _ Hbefore Hp).
      apply finish_Encode. }
    exists p. split_and!; [|done|done|].
    + rewrite Hitems. apply elem_of_app. right. by left.
    + intros Hfinite.
      by rewrite Hresp, (marshal_property_document p Hfinite).
  - intros Hnone.
    by rewrite (GetPropertyBySlug_range_none _ _ _ Hnone).
Qed.

Lemma GetPropertyBySlug_found_or_404_witness :
  serve_slug Sample.served "riverside"
  = json_response (Some (JObject
      [("_id", JString "p2");
       ("title", JString "Riverside");
       ("slug", JObject [("current", JString "riverside");
                         ("_type", JString "slug")]);
       ("developer", JObject [("_ref", JString EmptyString);
                              ("_type", JString EmptyString)]);
       ("description", JString EmptyString);
       ("mapUrl", JString EmptyString);
       ("geoLocation",
        JObject [("_type", JString EmptyString);
                 ("lat", JNumber (Float64 float_zero));
                 ("lng", JNumber (Float64 float_zero))]);
       ("minPrice", JNumber (Float32 float_zero));
       ("maxPrice", JNumber (Float32 float_zero));
       ("facilities", JNull);
       ("photos", JNull);
       ("built", JNumber (Int 0));
       ("createdAt", JString EmptyString)]))
  /\ serve_slug Sample.served "does-not-exist"
     = text_response 404 "Property not found".
Proof.
  split.
  - destruct (GetPropertyBySlug_found_or_404 Sample.served "riverside")
      as [Hhit _].
    destruct Hhit as (p & Hin & Hslug & _ & Hfull).
    + exists Sample.p_riverside. split; [right; by left|reflexivity].
    + simpl in Hin. rewrite !elem_of_cons in Hin.
      destruct Hin as [->|[->|[->|Hin]]].
      * discriminate Hslug.
      * exact (Hfull eq_refl).
      * discriminate Hslug.
      * by apply elem_of_nil in Hin.
  - apply (GetPropertyBySlug_found_or_404 Sample.served "does-not-exist").
    simpl. intros p Hin.
    rewrite !elem_of_cons in Hin.
    destruct Hin as [->|[->|[->|Hin]]]; [discriminate..|].
    by apply elem_of_nil in Hin.
Defined.

(** C7.  For every snapshot and slug, the lookup answers with the first
    property, in the snapshot's order, whose slug equals the given one:
    whatever follows it, same slug or not, plays no part. *)
Theorem GetPropertyBySlug_first_match (st : State) (slug : string)
    (before after : list Property) (p : Property) :
  elems (properties st) = before ++ p :: after ->
  slug_of p = slug ->
  (forall q, q ∈ before -> slug_of q <> slug) ->
  serve_slug st slug = json_response (Marshal.property p).
Proof.
  intros Hitems Hp Hbefore.
  rewrite serve_slug_unfold, Hitems,
    (GetPropertyBySlug_range_first _ _ _ _ _ Hbefore Hp).
  apply finish_Encode.
Qed.

Lemma GetPropertyBySlug_first_match_witness :
  slug_of Sample.p_gardenHeights = slug_of Sample.p_gardenHeights2
  /\ serve_slug Sample.served "garden-heights"
     = json_response (Marshal.property Sample.p_gardenHeights).
Proof.
  split; [reflexivity|].
  apply (GetPropertyBySlug_first_match Sample.served "garden-heights"
           [] [Sample.p_riverside; Sample.p_gardenHeights2]
           Sample.p_gardenHeights).
  - reflexivity.
  - reflexivity.
  - intros q Hq. by apply elem_of_nil in Hq.
Defined.

(** ** The refresher *)

Section RefresherProperties.

Variable unmarshalProperty : json -> result Property.

Lemma log_Println_properties (operands : list string) (st : State) :
  properties (log_Println operands st) = properties st.
Proof. reflexivity. Qed.

(** The equations of [decoded] and [decode_failures]. *)
Lemma decoded_cons (propertyData : json) (rest : list json) :
  decoded unmarshalProperty (propertyData :: rest)
  = match unmarshalProperty propertyData with
    | Ok property => property :: decoded unmarshalProperty rest
    | Err _ => decoded unmarshalProperty rest
    end.
Proof.
  unfold decoded. simpl. by destruct (unmarshalProperty propertyData).
Qed.

Lemma decode_failures_cons (propertyData : json) (rest : list json) :
  decode_failures unmarshalProperty (propertyData :: rest)
  = match unmarshalProperty propertyData with
    | Ok _ => decode_failures unmarshalProperty rest
    | Err err =>
        Sprintln ["Failed to unmarshal property:"; err]
        :: decode_failures unmarshalProperty rest
    end.
Proof.
  unfold decode_failures. simpl. by destruct (unmarshalProperty propertyData).
Qed.

(** The loop appends the decoded elements to the local slice and one log
    line per element that fails, and touches nothing else. *)
Lemma decode_range_spec (propertiesData : list json) (acc : list Property)
    (st : State) :
  decode_range unmarshalProperty propertiesData (mkSlice acc) st
  = (mkSlice (acc ++ decoded unmarshalProperty propertiesData),
     {| properties := properties st;
        logs := logs st ++ decode_failures unmarshalProperty propertiesData |}).
Proof.
  revert acc st.
  induction propertiesData as [|propertyData rest IH]; intros acc st.
  - simpl. rewrite !app_nil_r. by destruct st.
  - rewrite decoded_cons, decode_failures_cons. simpl.
    destruct (unmarshalProperty propertyData) as [property|err].
    + unfold append. simpl. rewrite IH. by rewrite <- app_assoc.
    + rewrite IH. simpl. by rewrite <- app_assoc.
Qed.

(** Each element is either decoded or reported. *)
Lemma decoded_length (propertiesData : list json) :
  length (decoded unmarshalProperty propertiesData)
  = length (List.filter (decodes unmarshalProperty) propertiesData).
Proof.
  induction propertiesData as [|v rest IH]; [done|].
  rewrite decoded_cons. unfold decodes at 1. simpl.
  destruct (unmarshalProperty v); simpl; by rewrite IH.
Qed.

Lemma decode_failures_length (propertiesData : list json) :
  length (decode_failures unmarshalProperty propertiesData)
  = length (List.filter (fun v => negb (decodes unmarshalProperty v))
              propertiesData).
Proof.
  induction propertiesData as [|v rest IH]; [done|].
  rewrite decode_failures_cons. unfold decodes at 1. simpl.
  destruct (unmarshalProperty v); simpl; by rewrite IH.
Qed.

(** The refresh with a [result] array in hand. *)
Lemma fetch_result_array (http_Get : Network) (sanityAPI : string)
    (st : State) (resp : HttpResponse) (body : bytes)
    (result : option (gmap string json)) (propertiesData : list json) :
  http_Get (request_url sanityAPI) = Ok resp ->
  StatusCode resp = StatusOK ->
  Body resp = ReadOk body ->
  Unmarshal_map body = Ok result ->
  index result "result" = JArray propertiesData ->
  fetchPropertiesFromSanity unmarshalProperty http_Get sanityAPI st
  = {| properties := mkSlice (decoded unmarshalProperty propertiesData);
       logs := logs st ++ decode_failures unmarshalProperty propertiesData
               ++ ["Properties successfully updated from Sanity."] |}.
Proof.
  intros Hget Hstatus Hbody Hmap Hindex.
  unfold fetchPropertiesFromSanity. fold (request_url sanityAPI).
  rewrite Hget, Hstatus, Hbody, Hmap, Hindex. simpl.
  rewrite decode_range_spec. simpl.
  unfold log_Println, set_properties. simpl.
  by rewrite <- app_assoc.
Qed.

(** The refresh without one. *)
Lemma fetch_no_result_array (http_Get : Network) (sanityAPI : string)
    (st : State) (resp : HttpResponse) (body : bytes)
    (result : option (gmap string json)) :
  http_Get (request_url sanityAPI) = Ok resp ->
  StatusCode resp = StatusOK ->
  Body resp = ReadOk body ->
  Unmarshal_map body = Ok result ->
  (forall l, index result "result" <> JArray l) ->
  fetchPropertiesFromSanity unmarshalProperty http_Get sanityAPI st
  = log_Println ["No properties found in Sanity API response."] st.
Proof.
  intros Hget Hstatus Hbody Hmap Hindex.
  unfold fetchPropertiesFromSanity. fold (request_url sanityAPI).
  rewrite Hget, Hstatus, Hbody, Hmap. simpl.
  destruct (index result "result") as [| | | |l|] eqn:E; try reflexivity.
  by destruct (Hindex l).
Qed.

(** Whatever the upstream does, a refresh either leaves [properties] as it
    found it or sets it to a value that does not depend on the state it
    started from. *)
Lemma fetch_properties_cases (http_Get : Network) (sanityAPI : string) :
  (forall st, properties (fetchPropertiesFromSanity unmarshalProperty http_Get sanityAPI st) = properties st)
  \/ (exists new, forall st, properties (fetchPropertiesFromSanity unmarshalProperty http_Get sanityAPI st) = new).
Proof.
  unfold fetchPropertiesFromSanity.
  destruct (http_Get _) as [resp|err]; [|by left].
  destruct (negb _); [by left|].
  destruct (Body resp) as [err|body]; [by left|].
  destruct (Unmarshal_map body) as [result|err]; [|by left].
  destruct (assert_array _) as [propertiesData|]; [|by left].
  right. exists (mkSlice (decoded unmarshalProperty propertiesData)). intros st.
  by rewrite decode_range_spec.
Qed.

Lemma refreshCycle_properties (sanityAPI : string)
    (c : Cycle) (st : State) :
  properties (refreshCycle unmarshalProperty sanityAPI c st)
  = properties (fetchPropertiesFromSanity unmarshalProperty (cycle_net c) sanityAPI
                  (log_Println ["Starting property fetch from Sanity..."] st)).
Proof. reflexivity. Qed.

End RefresherProperties.

Section RefreshClaims.

Variable unmarshalProperty : json -> result Property.

Lemma fetch_fails_properties (http_Get : Network) (sanityAPI : string)
    (st : State) :
  UpstreamFails (http_Get (request_url sanityAPI)) ->
  properties (fetchPropertiesFromSanity unmarshalProperty http_Get sanityAPI st)
  = properties st.
Proof.
  intros Hfails.
  unfold fetchPropertiesFromSanity. fold (request_url sanityAPI).
  inversion Hfails as [err Hr|resp Hstatus Hr|resp err Hbody Hr
                      |resp body err Hbody Hmap Hr].
  - reflexivity.
  - apply Z.eqb_neq in Hstatus. by rewrite Hstatus.
  - rewrite Hbody. by destruct (negb _).
  - rewrite Hbody, Hmap. by destruct (negb _).
Qed.

(** C2.  For every refresh in which the upstream fetch fails (transport
    error, non-200 status, body-read failure or top-level JSON decode
    failure), [properties] after the refresh is the slice it was before:
    the same entries in the same order.  This holds for the call of
    [fetchPropertiesFromSanity] and for the whole turn of the loop around
    it. *)
Theorem failed_fetch_keeps_snapshot (sanityAPI : string) (c : Cycle)
    (st : State) :
  UpstreamFails (cycle_net c (request_url sanityAPI)) ->
  properties
    (fetchPropertiesFromSanity unmarshalProperty (cycle_net c) sanityAPI st)
  = properties st
  /\ properties (refreshCycle unmarshalProperty sanityAPI c st)
     = properties st.
Proof.
  intros Hfails. split.
  - by apply fetch_fails_properties.
  - rewrite refreshCycle_properties. by rewrite fetch_fails_properties.
Qed.

(** C3.  When the upstream answers 200 with an object whose [result] field
    is an array, the refresh runs to its end and installs as [properties]
    exactly the elements that decode into a [Property], in the array's
    order: as many entries as elements that decode.  Every element that
    does not decode leaves one line in the log and is dropped; the last
    line logged is the success message. *)
Theorem result_array_installs_decoded (http_Get : Network)
    (sanityAPI : string) (st : State) (fields : list (string * json))
    (propertiesData : list json) :
  AnswersObject (http_Get (request_url sanityAPI)) fields ->
  object_map fields !! "result" = Some (JArray propertiesData) ->
  let st' :=
    fetchPropertiesFromSanity unmarshalProperty http_Get sanityAPI st in
  properties st' = mkSlice (decoded unmarshalProperty propertiesData)
  /\ len (properties st')
     = length (List.filter (decodes unmarshalProperty) propertiesData)
  /\ logs st'
     = logs st ++ decode_failures unmarshalProperty propertiesData
       ++ ["Properties successfully updated from Sanity."]
  /\ length (decode_failures unmarshalProperty propertiesData)
     = length (List.filter (fun v => negb (decodes unmarshalProperty v))
                 propertiesData).
Proof.
  intros (resp & Hget & Hstatus & Hbody) Hresult st'.
  assert (st' = {| properties := mkSlice (decoded unmarshalProperty propertiesData);
                   logs := logs st
                           ++ decode_failures unmarshalProperty propertiesData
                           ++ ["Properties successfully updated from Sanity."] |})
    as ->.
  { eapply fetch_result_array; eauto.
    simpl. by rewrite Hresult. }
  split_and!; simpl; try reflexivity.
  - apply decoded_length.
  - apply decode_failures_length.
Qed.

(** C4.  When the upstream answers 200 with a JSON object whose [result]
    field is absent or is not an array, the refresh logs the "no properties
    found" line and leaves [properties] as it was. *)
Theorem no_result_array_keeps_snapshot (http_Get : Network)
    (sanityAPI : string) (st : State) (fields : list (string * json)) :
  AnswersObject (http_Get (request_url sanityAPI)) fields ->
  (object_map fields !! "result" = None
   \/ exists v, object_map fields !! "result" = Some v
                /\ forall l, v <> JArray l) ->
  let st' :=
    fetchPropertiesFromSanity unmarshalProperty http_Get sanityAPI st in
  properties st' = properties st
  /\ logs st' = logs st ++ ["No properties found in Sanity API response."].
Proof.
  intros (resp & Hget & Hstatus & Hbody) Hresult st'.
  assert (st' = log_Println ["No properties found in Sanity API response."] st)
    as ->; [|done].
  eapply fetch_no_result_array; eauto.
  intros l. simpl.
  destruct Hresult as [->|(v & -> & Hv)]; simpl; [discriminate|apply Hv].
Qed.

(** C8.  Refreshing twice against the same upstream content leaves, after
    the second refresh, the [properties] the first refresh left; the two
    routes answer the same after each of the two. *)
Theorem refresh_idempotent (http_Get : Network) (sanityAPI : string)
    (st : State) :
  let st1 :=
    fetchPropertiesFromSanity unmarshalProperty http_Get sanityAPI st in
  let st2 :=
    fetchPropertiesFromSanity unmarshalProperty http_Get sanityAPI st1 in
  properties st2 = properties st1
  /\ serve_list st2 = serve_list st1
  /\ forall slug, serve_slug st2 slug = serve_slug st1 slug.
Proof.
  intros st1 st2.
  assert (properties st2 = properties st1) as Hsame.
  { subst st1 st2.
    destruct (fetch_properties_cases unmarshalProperty http_Get sanityAPI)
      as [Hkeep|[new Hnew]].
    - by rewrite Hkeep.
    - by rewrite !Hnew. }
  split_and!; [done|by apply serve_list_ext|].
  intros slug. by apply serve_slug_ext.
Qed.

End RefreshClaims.

(** *** Runs of the refresher on the sample upstreams *)

Example fetch_500 :
  fetchPropertiesFromSanity Sample.unmarshalProperty Sample.upstream_500
    Sample.api Sample.served
  = {| properties := properties Sample.served;
       logs := ["Sanity API returned non-200 status: 500 Internal Server Error"] |}.
Proof. reflexivity. Qed.

Example fetch_cut :
  fetchPropertiesFromSanity Sample.unmarshalProperty Sample.upstream_cut
    Sample.api Sample.served
  = {| properties := properties Sample.served;
       logs := ["Failed to read Sanity API response: unexpected EOF"] |}.
Proof. reflexivity. Qed.

Example fetch_html :
  fetchPropertiesFromSanity Sample.unmarshalProperty Sample.upstream_html
    Sample.api Sample.served
  = {| properties := properties Sample.served;
       logs := ["Failed to parse JSON from Sanity API: invalid character '<' looking for beginning of value"] |}.
Proof. reflexivity. Qed.

Example fetch_null_result :
  fetchPropertiesFromSanity Sample.unmarshalProperty
    Sample.upstream_null_result Sample.api Sample.served
  = {| properties := properties Sample.served;
       logs := ["No properties found in Sanity API response."] |}.
Proof. reflexivity. Qed.

(** An empty [result] array replaces the snapshot by an allocated empty
    slice, which the list route writes as the empty array. *)
Example fetch_empty :
  let st' :=
    fetchPropertiesFromSanity Sample.unmarshalProperty Sample.upstream_empty
      Sample.api Sample.served in
  properties st' = mkSlice []
  /\ serve_list st' = json_response (Some (JArray [])).
Proof. split; reflexivity. Qed.

(** Until a refresh installs a slice, [properties] stays nil: a failed
    first refresh leaves the list route answering [null]. *)
Example fetch_down_at_start :
  let st' :=
    fetchPropertiesFromSanity Sample.unmarshalProperty Sample.upstream_down
      Sample.api initialState in
  properties st' = nilSlice
  /\ serve_list st' = json_response (Some JNull).
Proof. split; reflexivity. Qed.

Lemma failed_fetch_keeps_snapshot_witness :
  let c := mkCycle Sample.upstream_down "1.2ms" in
  UpstreamFails (cycle_net c (request_url Sample.api))
  /\ properties
       (fetchPropertiesFromSanity Sample.unmarshalProperty (cycle_net c)
          Sample.api Sample.served)
     = properties Sample.served
  /\ properties (refreshCycle Sample.unmarshalProperty Sample.api c Sample.served)
     = properties Sample.served.
Proof.
  intros c.
  assert (UpstreamFails (cycle_net c (request_url Sample.api))) as Hfails
    by apply fails_transport.
  split; [exact Hfails|].
  exact (failed_fetch_keeps_snapshot Sample.unmarshalProperty Sample.api c
           Sample.served Hfails).
Defined.

Lemma result_array_installs_decoded_witness :
  let st' :=
    fetchPropertiesFromSanity Sample.unmarshalProperty Sample.upstream_mixed
      Sample.api initialState in
  properties st'
  = mkSlice [Sample.p_gardenHeights; Sample.p_riverside;
             Sample.p_gardenHeights2]
  /\ len (properties st') = 3%nat
  /\ length (logs st') = 3%nat.
Proof.
  intros st'.
  destruct (result_array_installs_decoded Sample.unmarshalProperty
              Sample.upstream_mixed Sample.api initialState
              [("ms", JNumber (Float64 float_zero));
               ("result", JArray Sample.mixed)]
              Sample.mixed) as (Hprops & Hlen & Hlogs & _).
  - exists (Sample.ok_body (JObject [("ms", JNumber (Float64 float_zero));
                                     ("result", JArray Sample.mixed)])).
    split_and!; reflexivity.
  - reflexivity.
  - subst st'. rewrite Hlen, Hlogs, Hprops. split_and!; reflexivity.
Defined.

Lemma no_result_array_keeps_snapshot_witness :
  let st' :=
    fetchPropertiesFromSanity Sample.unmarshalProperty
      Sample.upstream_no_result Sample.api Sample.served in
  properties st' = properties Sample.served
  /\ logs st' = ["No properties found in Sanity API response."].
Proof.
  apply (no_result_array_keeps_snapshot Sample.unmarshalProperty
           Sample.upstream_no_result Sample.api Sample.served
           [("error", JString "query failed")]).
  - exists (Sample.ok_body (JObject [("error", JString "query failed")])).
    split_and!; reflexivity.
  - left. reflexivity.
Defined.

(** ** Process start *)

Lemma os_Getenv_unset (env file : gmap string string) (key : string) :
  env !! key = None -> file !! key = None ->
  os_Getenv (env ∪ file) key = EmptyString.
Proof.
  intros Henv Hfile. unfold os_Getenv.
  by rewrite (proj2 (lookup_union_None env file key) (conj Henv Hfile)).
Qed.

(** [main] stops at the second [log.Fatal] when the variable reads empty. *)
Lemma main_without_url (os : Startup) (env : gmap string string) :
  godotenv_Load os = Ok env ->
  os_Getenv env "SANITY_API_URL" = EmptyString ->
  main os = ([EvFatal "SANITY_API_URL is not set in the environment"], None).
Proof.
  intros Hload Hurl. unfold main. rewrite Hload.
  unfold mbind, Proc_bind, mret, Proc_ret. simpl.
  rewrite Hurl. reflexivity.
Qed.

(** C9.  When [SANITY_API_URL] is absent at startup (set neither in the
    process environment nor by the [.env] file), the process ends in
    [log.Fatal]: that is the only thing it does, so it registers no route,
    binds no socket and serves no request. *)
Theorem missing_SANITY_API_URL_is_fatal (os : Startup) :
  environ os !! "SANITY_API_URL" = None ->
  (forall file, dotenv os = Ok file -> file !! "SANITY_API_URL" = None) ->
  (exists line, main os = ([EvFatal line], None))
  /\ Forall (fun e => is_listen e = false) (trace os).
Proof.
  intros Henv Hfile.
  assert (exists line, main os = ([EvFatal line], None)) as [line Hmain].
  { destruct (dotenv os) as [file|err] eqn:Hdotenv.
    - eexists. apply (main_without_url os (environ os ∪ file)).
      + unfold godotenv_Load. by rewrite Hdotenv.
      + apply os_Getenv_unset; [done|by apply Hfile].
    - eexists. unfold main, godotenv_Load. rewrite Hdotenv. reflexivity. }
  split; [by exists line|].
  unfold trace. rewrite Hmain. simpl. by repeat constructor.
Qed.

Lemma missing_SANITY_API_URL_is_fatal_witness :
  (exists line, main Sample.os_no_url = ([EvFatal line], None))
  /\ Forall (fun e => is_listen e = false) (trace Sample.os_no_url).
Proof.
  apply (missing_SANITY_API_URL_is_fatal Sample.os_no_url).
  - reflexivity.
  - intros file Hfile. injection Hfile as <-. reflexivity.
Defined.

(** C10.  When loading the [.env] file fails, the process ends in
    [log.Fatal] at once, whatever the process environment holds
    ([SANITY_API_URL] and [PORT] included): the environment is not read,
    no route is registered and no socket is bound. *)
Theorem dotenv_failure_is_fatal (err : string) (env : gmap string string)
    (listen : option string) :
  main {| dotenv := Err err; environ := env; listen_error := listen |}
  = ([EvFatal ("Error loading .env file:" +:+ err)], None).
Proof. reflexivity. Qed.

(** A start that goes through, for comparison: the socket is bound last. *)
Example main_sample :
  trace Sample.os_ok
  = [EvHandleFunc "/properties" "GET" HGetProperties;
     EvHandleFunc "/properties/{slug}" "GET" HGetPropertyBySlug;
     EvGoRefresher Sample.api;
     EvPrintln "Server is running on port: 8000";
     EvListenAndServe ":8000"].
Proof. reflexivity. Qed.

Example main_port_taken :
  main Sample.os_port_taken
  = ([EvHandleFunc "/properties" "GET" HGetProperties;
      EvHandleFunc "/properties/{slug}" "GET" HGetPropertyBySlug;
      EvGoRefresher Sample.api;
      EvPrintln "Server is running on port: 9000";
      EvListenAndServe ":9000";
      EvFatal "listen tcp :9000: bind: address already in use"], None).
Proof. reflexivity. Qed.

(** * Further properties of the code *)

(** ** Sequences of refreshes *)

Section RefresherSequences.

Variable unmarshalProperty : json -> result Property.

(** Every answer either delivers an array or delivers nothing. *)
Lemma Delivers_or_nothing (r : result HttpResponse) :
  (exists propertiesData, Delivers r propertiesData) \/ DeliversNothing r.
Proof.
  destruct r as [resp|err]; [|right; left; constructor].
  destruct (decide (StatusCode resp = StatusOK)) as [Hstatus|Hstatus];
    [|right; left; by constructor].
  destruct (Body resp) as [err|body] eqn:Hbody;
    [right; left; by econstructor 3|].
  destruct (Unmarshal_map body) as [result|err] eqn:Hmap;
    [|right; left; by econstructor 4].
  destruct (index result "result") as [| | | |l|] eqn:Hindex;
    try (right; right; exists resp, body, result;
         split_and!; try done; intros l; by rewrite Hindex).
  left. exists l, resp, body, result. by split_and!.
Qed.

Lemma fetch_delivers (http_Get : Network) (sanityAPI : string) (st : State)
    (propertiesData : list json) :
  Delivers (http_Get (request_url sanityAPI)) propertiesData ->
  fetchPropertiesFromSanity unmarshalProperty http_Get sanityAPI st
  = {| properties := mkSlice (decoded unmarshalProperty propertiesData);
       logs := logs st ++ decode_failures unmarshalProperty propertiesData
               ++ ["Properties successfully updated from Sanity."] |}.
Proof.
  intros (resp & body & result & Hget & Hstatus & Hbody & Hmap & Hindex).
  by eapply fetch_result_array.
Qed.

Lemma fetch_nothing (http_Get : Network) (sanityAPI : string) (st : State) :
  DeliversNothing (http_Get (request_url sanityAPI)) ->
  properties (fetchPropertiesFromSanity unmarshalProperty http_Get sanityAPI st)
  = properties st.
Proof.
  intros [Hfails|(resp & body & result & Hget & Hstatus & Hbody & Hmap & Hno)].
  - by apply fetch_fails_properties.
  - by erewrite fetch_no_result_array.
Qed.

Lemma refreshCycle_delivers (sanityAPI : string) (c : Cycle) (st : State)
    (propertiesData : list json) :
  Delivers (cycle_net c (request_url sanityAPI)) propertiesData ->
  properties (refreshCycle unmarshalProperty sanityAPI c st)
  = mkSlice (decoded unmarshalProperty propertiesData).
Proof.
  intros Hd. rewrite refreshCycle_properties.
  by rewrite (fetch_delivers _ _ _ _ Hd).
Qed.

Lemma refreshCycle_nothing (sanityAPI : string) (c : Cycle) (st : State) :
  DeliversNothing (cycle_net c (request_url sanityAPI)) ->
  properties (refreshCycle unmarshalProperty sanityAPI c st) = properties st.
Proof.
  intros Hn. rewrite refreshCycle_properties. by rewrite fetch_nothing.
Qed.

Lemma refresher_app (sanityAPI : string) (first second : list Cycle)
    (st : State) :
  refresher unmarshalProperty sanityAPI (first ++ second) st
  = refresher unmarshalProperty sanityAPI second
      (refresher unmarshalProperty sanityAPI first st).
Proof. unfold refresher. apply foldl_app. Qed.

Lemma refresher_nothing (sanityAPI : string) (cycles : list Cycle)
    (st : State) :
  (forall c, c ∈ cycles ->
     DeliversNothing (cycle_net c (request_url sanityAPI))) ->
  properties (refresher unmarshalProperty sanityAPI cycles st) = properties st.
Proof.
  revert st. induction cycles as [|c cycles IH]; intros st Hall; [done|].
  change (properties
            (refresher unmarshalProperty sanityAPI cycles
               (refreshCycle unmarshalProperty sanityAPI c st))
          = properties st).
  rewrite IH.
  - apply refreshCycle_nothing. apply Hall. by left.
  - intros c' Hc'. apply Hall. by right.
Qed.

(** X1.  As long as no turn of the refresher loop brings a new list (every
    fetch fails, or its answer has no [result] array), [properties] stays
    what it was, however many turns go by: a snapshot goes stale, it is
    never cleared.  In particular the list route of a process whose
    upstream never answered keeps writing [null]. *)
Theorem refresher_keeps_stale_snapshot (sanityAPI : string)
    (cycles : list Cycle) (st : State) :
  (forall c, c ∈ cycles ->
     DeliversNothing (cycle_net c (request_url sanityAPI))) ->
  let st' := refresher unmarshalProperty sanityAPI cycles st in
  properties st' = properties st
  /\ serve_list st' = serve_list st
  /\ (properties st = nilSlice -> serve_list st' = json_response (Some JNull)).
Proof.
  intros Hall st'.
  assert (properties st' = properties st) as Hsame
    by by apply refresher_nothing.
  split_and!; [done|by apply serve_list_ext|].
  intros Hnil. by rewrite serve_list_response, Hsame, Hnil.
Qed.

(** X2.  After any number of turns of the refresher loop, [properties] is
    what the last turn that brought an array installed: the elements of
    that array that decode.  Neither the snapshot before, nor the turns
    before it, nor the later turns that bring nothing leave a trace in
    it. *)
Theorem refresher_last_delivery_wins (sanityAPI : string)
    (earlier later : list Cycle) (c : Cycle) (st : State)
    (propertiesData : list json) :
  Delivers (cycle_net c (request_url sanityAPI)) propertiesData ->
  (forall c', c' ∈ later ->
     DeliversNothing (cycle_net c' (request_url sanityAPI))) ->
  properties (refresher unmarshalProperty sanityAPI (earlier ++ c :: later) st)
  = mkSlice (decoded unmarshalProperty propertiesData).
Proof.
  intros Hd Hlater.
  rewrite refresher_app.
  change (properties
            (refresher unmarshalProperty sanityAPI later
               (refreshCycle unmarshalProperty sanityAPI c
                  (refresher unmarshalProperty sanityAPI earlier st)))
          = mkSlice (decoded unmarshalProperty propertiesData)).
  rewrite (refresher_nothing _ _ _ Hlater).
  by apply refreshCycle_delivers.
Qed.

(** X3.  A refresh that brings an array replaces the snapshot wholesale:
    what it installs does not depend on the snapshot it found, and a slug
    that none of the decoded elements carries is answered with 404 from
    then on, also when the snapshot before had a property with it. *)
Theorem refresh_replaces_wholesale (http_Get : Network) (sanityAPI : string)
    (propertiesData : list json) (st st0 : State) (slug : string) :
  Delivers (http_Get (request_url sanityAPI)) propertiesData ->
  (forall p, p ∈ decoded unmarshalProperty propertiesData ->
             slug_of p <> slug) ->
  let st' :=
    fetchPropertiesFromSanity unmarshalProperty http_Get sanityAPI st in
  properties st'
  = properties
      (fetchPropertiesFromSanity unmarshalProperty http_Get sanityAPI st0)
  /\ serve_slug st' slug = text_response 404 "Property not found".
Proof.
  intros Hd Hnone st'. subst st'.
  rewrite !(fetch_delivers _ _ _ _ Hd). split; [done|].
  rewrite serve_slug_unfold. simpl.
  by rewrite (GetPropertyBySlug_range_none _ _ _ Hnone).
Qed.


(** Closes a goal about a state that one [log_Println] made. *)
Ltac logs_one_line :=
  eexists; split; cycle 1; [reflexivity|discriminate].

(** The lines one call of the refresh adds to the log: never none, and
    the earlier lines stay. *)
Lemma fetch_logs (http_Get : Network) (sanityAPI : string) (st : State) :
  exists lines,
    lines <> []
    /\ logs (fetchPropertiesFromSanity unmarshalProperty http_Get sanityAPI st)
       = logs st ++ lines.
Proof.
  destruct (Delivers_or_nothing (http_Get (request_url sanityAPI)))
    as [[propertiesData Hd]|[Hfails|Hno]].
  - rewrite (fetch_delivers _ _ _ _ Hd). simpl.
    exists (decode_failures unmarshalProperty propertiesData
            ++ ["Properties successfully updated from Sanity."]).
    split; [|done].
    intros Hnil. apply app_eq_nil in Hnil as [_ Hnil]. discriminate.
  - unfold fetchPropertiesFromSanity. fold (request_url sanityAPI).
    inversion Hfails as [err Hr|resp Hstatus Hr|resp err Hbody Hr
                        |resp body err Hbody Hmap Hr].
    + logs_one_line.
    + apply Z.eqb_neq in Hstatus. rewrite Hstatus. logs_one_line.
    + rewrite Hbody. destruct (negb _); logs_one_line.
    + rewrite Hbody, Hmap. destruct (negb _); logs_one_line.
  - destruct Hno as (resp & body & result & Hget & Hstatus & Hbody & Hmap & Hno).
    erewrite fetch_no_result_array; eauto. logs_one_line.
Qed.

(** X5.  Every turn of the refresher loop leaves its mark in the log and
    erases nothing: after the lines that were there come the start line,
    at least one line of the fetch telling how it went, the line with the
    elapsed time and the line announcing the next turn. *)
Theorem refreshCycle_always_logs (sanityAPI : string) (c : Cycle)
    (st : State) :
  exists lines,
    lines <> []
    /\ logs (refreshCycle unmarshalProperty sanityAPI c st)
       = logs st
         ++ ["Starting property fetch from Sanity..."]
         ++ lines
         ++ ["Property fetch completed in " +:+ cycle_elapsed c;
             "Next update will occur in 1 hour."].
Proof.
  unfold refreshCycle.
  destruct (fetch_logs (cycle_net c) sanityAPI
              (log_Println ["Starting property fetch from Sanity..."] st))
    as (lines & Hne & Hlogs).
  exists lines. split; [done|].
  simpl. rewrite Hlogs. simpl.
  by rewrite <- !app_assoc.
Qed.

End RefresherSequences.

Lemma refresher_keeps_stale_snapshot_witness :
  let cycles := [mkCycle Sample.upstream_down "30s";
                 mkCycle Sample.upstream_500 "1.1s";
                 mkCycle Sample.upstream_no_result "0.9s"] in
  let st' :=
    refresher Sample.unmarshalProperty Sample.api cycles initialState in
  properties st' = properties initialState
  /\ serve_list st' = serve_list initialState
  /\ (properties initialState = nilSlice ->
      serve_list st' = json_response (Some JNull)).
Proof.
  intros cycles.
  apply (refresher_keeps_stale_snapshot Sample.unmarshalProperty Sample.api
           cycles initialState).
  intros c Hc. subst cycles.
  rewrite !elem_of_cons in Hc.
  destruct Hc as [->|[->|[->|Hc]]]; [| | |by apply elem_of_nil in Hc].
  - left. apply fails_transport.
  - left. apply fails_status. simpl. discriminate.
  - right. eexists _, _, _. split_and!; try reflexivity.
    intros l. discriminate.
Defined.

Lemma refresher_last_delivery_wins_witness :
  properties
    (refresher Sample.unmarshalProperty Sample.api
       ([mkCycle Sample.upstream_empty "1s"]
        ++ mkCycle Sample.upstream_mixed "2s"
           :: [mkCycle Sample.upstream_down "30s"])
       initialState)
  = mkSlice (decoded Sample.unmarshalProperty Sample.mixed).
Proof.
  apply (refresher_last_delivery_wins Sample.unmarshalProperty Sample.api
           [mkCycle Sample.upstream_empty "1s"]
           [mkCycle Sample.upstream_down "30s"]
           (mkCycle Sample.upstream_mixed "2s") initialState Sample.mixed).
  - eexists _, _, _. split_and!; reflexivity.
  - intros c Hc. apply list_elem_of_singleton in Hc as ->.
    left. apply fails_transport.
Defined.

Lemma refresh_replaces_wholesale_witness :
  let st' :=
    fetchPropertiesFromSanity Sample.unmarshalProperty Sample.upstream_empty
      Sample.api Sample.served in
  properties st'
  = properties
      (fetchPropertiesFromSanity Sample.unmarshalProperty
         Sample.upstream_empty Sample.api initialState)
  /\ serve_slug st' "garden-heights"
     = text_response 404 "Property not found".
Proof.
  apply (refresh_replaces_wholesale Sample.unmarshalProperty
           Sample.upstream_empty Sample.api [] Sample.served initialState
           "garden-heights").
  - eexists _, _, _. split_and!; reflexivity.
  - intros p Hp. by apply elem_of_nil in Hp.
Defined.


(** An element that decodes with an empty slug is installed, but no request
    reaches the handler with its slug. *)
Example empty_slug_not_routed (st : State) :
  Sample.unmarshalProperty JNull = Ok zeroProperty
  /\ route_GetPropertyBySlug st (slug_of zeroProperty) = None.
Proof. split; reflexivity. Qed.

(** ** The two routes together *)

(** The marshaller of a list: one document per item, in order. *)
Lemma marshal_array_Forall2 {A : Type} (f : A -> option json) (l : list A)
    (docs : list json) :
  Marshal.array_ f l = Some docs <->
  Forall2 (fun x doc => f x = Some doc) l docs.
Proof.
  revert docs. induction l as [|x l IH]; intros docs; simpl.
  - split.
    + intros [= <-]. constructor.
    + intros H. by inversion H.
  - destruct (f x) as [doc|] eqn:Hx.
    + destruct (Marshal.array_ f l) as [rest|] eqn:Hl.
      * split.
        -- intros [= <-]. constructor; [done|]. by apply IH.
        -- intros H. inversion H as [|? d ? ds Hd Hds]; subst.
           apply IH in Hds. congruence.
      * split; [done|].
        intros H. inversion H as [|? d ? ds Hd Hds]; subst.
        apply IH in Hds. discriminate.
    + split; [done|].
      intros H. inversion H as [|? d ? ds Hd Hds]; subst. congruence.
Qed.

Lemma marshal_properties_finite (l : list Property) :
  Forall (fun p => finite_floats p = true) l ->
  exists docs, Marshal.array_ Marshal.property l = Some docs.
Proof.
  induction 1 as [|p l Hp _ [docs IH]]; simpl; [by eexists|].
  destruct (marshal_property_finite p Hp) as [doc ->].
  rewrite IH. by eexists.
Qed.

Lemma json_response_inj (a b : option json) :
  json_response a = json_response b -> a = b.
Proof.
  intros H. apply (f_equal resp_body) in H. simpl in H.
  destruct a, b; congruence.
Qed.

Lemma text_response_not_json (code : Z) (text : string) (doc : option json) :
  text_response code text <> json_response doc.
Proof.
  intros H. apply (f_equal resp_body) in H. simpl in H.
  destruct doc; discriminate.
Qed.

(** The slug route either stops at a first match or reports none. *)
Lemma serve_slug_cases (st : State) (slug : string) :
  (exists before p after,
     elems (properties st) = before ++ p :: after
     /\ slug_of p = slug
     /\ (forall q, q ∈ before -> slug_of q <> slug)
     /\ serve_slug st slug = json_response (Marshal.property p))
  \/ ((forall q, q ∈ elems (properties st) -> slug_of q <> slug)
      /\ serve_slug st slug = text_response 404 "Property not found").
Proof.
  rewrite serve_slug_unfold.
  destruct (decide (Exists (fun p => slug_of p = slug) (elems (properties st))))
    as [Hex|Hnex].
  - left. apply Exists_exists in Hex.
    destruct (first_match_split _ _ Hex)
      as (before & p & after & Hitems & Hp & Hbefore).
    exists before, p, after. split_and!; try done.
    rewrite Hitems, (GetPropertyBySlug_range_first _ _ _ _ _ Hbefore Hp).
    apply finish_Encode.
  - right.
    assert (forall q, q ∈ elems (properties st) -> slug_of q <> slug) as Hnone.
    { intros q Hq Heq. apply Hnex. apply Exists_exists. by exists q. }
    split; [done|].
    by rewrite (GetPropertyBySlug_range_none _ _ _ Hnone).
Qed.

(** The marshalled property shows its slug under [slug.current]. *)
Lemma marshal_property_slug (p : Property) (doc : json) :
  Marshal.property p = Some doc ->
  json_field "current" (json_field "slug" doc) = JString (slug_of p).
Proof.
  unfold Marshal.property, Marshal.struct_. simpl.
  destruct (Marshal.geoLocation _); [|done].
  destruct (Marshal.float32_ (Property_MinPrice p)); [|done].
  destruct (Marshal.float32_ (Property_MaxPrice p)); [|done].
  destruct (Marshal.slice_ Marshal.facility _); [|done].
  destruct (Marshal.slice_ Marshal.sanityImage _); [|done].
  simpl. intros [= <-]. reflexivity.
Qed.

(** X6.  On an allocated snapshot whose properties all have numbers for
    floats, the list route answers 200 with a JSON array that has one
    object per property, in the snapshot's order, each the encoding of its
    property. *)
Theorem GetProperties_lists_every_property (st : State)
    (items : list Property) :
  properties st = mkSlice items ->
  Forall (fun p => finite_floats p = true) items ->
  exists docs,
    serve_list st = json_response (Some (JArray docs))
    /\ Forall2 (fun p doc => Marshal.property p = Some doc) items docs
    /\ length docs = length items.
Proof.
  intros Hst Hfinite.
  destruct (marshal_properties_finite items Hfinite) as [docs Hdocs].
  exists docs. split_and!.
  - rewrite serve_list_response, Hst. simpl. by rewrite Hdocs.
  - by apply marshal_array_Forall2.
  - apply marshal_array_Forall2 in Hdocs. symmetry.
    by eapply Forall2_length.
Qed.

Lemma GetProperties_lists_every_property_witness :
  exists docs,
    serve_list Sample.served = json_response (Some (JArray docs))
    /\ Forall2 (fun p doc => Marshal.property p = Some doc)
         [Sample.p_gardenHeights; Sample.p_riverside; Sample.p_gardenHeights2]
         docs
    /\ length docs = 3%nat.
Proof.
  apply (GetProperties_lists_every_property Sample.served
           [Sample.p_gardenHeights; Sample.p_riverside;
            Sample.p_gardenHeights2]).
  - reflexivity.
  - repeat constructor.
Defined.

(** X7.  The two routes agree: whenever the list route answers with an
    array and the slug route answers 200 with a document, that document is
    one of the elements of the array. *)
Theorem slug_hit_is_list_element (st : State) (slug : string)
    (docs : list json) (doc : json) :
  serve_list st = json_response (Some (JArray docs)) ->
  serve_slug st slug = json_response (Some doc) ->
  doc ∈ docs.
Proof.
  intros Hlist Hslug.
  rewrite serve_list_response in Hlist. apply json_response_inj in Hlist.
  destruct (serve_slug_cases st slug)
    as [(before & p & after & Hitems & _ & _ & Hhit)|[_ Hmiss]].
  - rewrite Hhit in Hslug. apply json_response_inj in Hslug.
    destruct (properties st) as [|items]; simpl in *; [discriminate|].
    destruct (Marshal.array_ Marshal.property items) as [docs'|] eqn:Hdocs;
      simpl in Hlist; [|discriminate].
    injection Hlist as ->.
    apply marshal_array_Forall2 in Hdocs. subst items.
    apply Forall2_app_inv_l in Hdocs
      as (docs1 & docs2 & _ & Hrest & ->).
    inversion Hrest as [|? d ? ds Hd _]; subst.
    assert (doc = d) as -> by congruence.
    apply elem_of_app. right. by left.
  - rewrite Hmiss in Hslug. by apply text_response_not_json in Hslug.
Qed.

Lemma slug_hit_is_list_element_witness :
  exists docs doc,
    serve_list Sample.served = json_response (Some (JArray docs))
    /\ serve_slug Sample.served "riverside" = json_response (Some doc)
    /\ doc ∈ docs.
Proof.
  eexists _, _.
  assert (serve_list Sample.served = json_response (Some (JArray _))) as Hlist
    by reflexivity.
  assert (serve_slug Sample.served "riverside" = json_response (Some _))
    as Hslug by reflexivity.
  split_and!; [exact Hlist|exact Hslug|].
  exact (slug_hit_is_list_element Sample.served "riverside" _ _ Hlist Hslug).
Defined.

(** X8.  A document the slug route answers with is about the slug that was
    asked for: its [slug.current] member is the path parameter. *)
Theorem slug_hit_carries_slug (st : State) (slug : string) (doc : json) :
  serve_slug st slug = json_response (Some doc) ->
  json_field "current" (json_field "slug" doc) = JString slug.
Proof.
  intros Hslug.
  destruct (serve_slug_cases st slug)
    as [(before & p & after & _ & Hp & _ & Hhit)|[_ Hmiss]].
  - rewrite Hhit in Hslug. apply json_response_inj in Hslug.
    rewrite (marshal_property_slug _ _ Hslug). by rewrite Hp.
  - rewrite Hmiss in Hslug. by apply text_response_not_json in Hslug.
Qed.

Lemma slug_hit_carries_slug_witness :
  exists doc,
    serve_slug Sample.served "riverside" = json_response (Some doc)
    /\ json_field "current" (json_field "slug" doc) = JString "riverside".
Proof.
  eexists.
  assert (serve_slug Sample.served "riverside" = json_response (Some _))
    as Hslug by reflexivity.
  split; [exact Hslug|].
  exact (slug_hit_carries_slug Sample.served "riverside" _ Hslug).
Defined.

(** X9.  The slug route answers 404 exactly when no property of the
    snapshot has the slug, and 200 exactly when one has: there is no third
    status.  On a snapshot without entries, the nil one of the start
    included, every slug gets 404. *)
Theorem GetPropertyBySlug_status (st : State) (slug : string) :
  (resp_status (serve_slug st slug) = 200
   <-> exists p, p ∈ elems (properties st) /\ slug_of p = slug)
  /\ (resp_status (serve_slug st slug) = 404
      <-> forall p, p ∈ elems (properties st) -> slug_of p <> slug)
  /\ (len (properties st) = 0%nat ->
      serve_slug st slug = text_response 404 "Property not found").
Proof.
  destruct (serve_slug_cases st slug)
    as [(before & p & after & Hitems & Hp & _ & Hhit)|[Hnone Hmiss]].
  - assert (p ∈ elems (properties st)) as Hin.
    { rewrite Hitems. apply elem_of_app. right. by left. }
    rewrite Hhit. split_and!.
    + split; [by exists p|done].
    + split; [discriminate|]. intros Hnone. by destruct (Hnone p Hin).
    + unfold len. rewrite Hitems, length_app. simpl. lia.
  - rewrite Hmiss. split_and!.
    + split; [discriminate|]. intros (p & Hin & Hp). by destruct (Hnone p Hin).
    + done.
    + done.
Qed.

Lemma GetPropertyBySlug_status_witness :
  len (properties initialState) = 0%nat
  /\ serve_slug initialState "garden-heights"
     = text_response 404 "Property not found".
Proof.
  split; [reflexivity|].
  destruct (GetPropertyBySlug_status initialState "garden-heights")
    as (_ & _ & Hempty).
  apply Hempty. reflexivity.
Defined.

(** ** More on process start *)

Lemma listen_port_Getenv (env : gmap string string) :
  (if decide (os_Getenv env "PORT" = EmptyString)
   then "8000" else os_Getenv env "PORT")
  = listen_port env.
Proof.
  unfold listen_port, os_Getenv.
  destruct (env !! "PORT") as [p|]; simpl; [|done].
  by destruct (decide (p = EmptyString)).
Qed.

(** The whole run of a start that gets past both checks. *)
Lemma main_started (os : Startup) (file : gmap string string) :
  dotenv os = Ok file ->
  os_Getenv (environ os ∪ file) "SANITY_API_URL" <> EmptyString ->
  trace os
  = [route_list; route_slug;
     EvGoRefresher (os_Getenv (environ os ∪ file) "SANITY_API_URL");
     EvPrintln
       (Sprintln ["Server is running on port:";
                  listen_port (environ os ∪ file)]);
     EvListenAndServe (":" +:+ listen_port (environ os ∪ file))]
    ++ match listen_error os with
       | Some err => [EvFatal err]
       | None => []
       end.
Proof.
  intros Hdotenv Hurl.
  unfold trace, main, godotenv_Load. rewrite Hdotenv.
  unfold mbind, Proc_bind, mret, Proc_ret. simpl.
  destruct (decide (os_Getenv (environ os ∪ file) "SANITY_API_URL"
                    = EmptyString)) as [Hempty|_]; [done|].
  simpl. rewrite listen_port_Getenv.
  by destruct (listen_error os).
Qed.

(** A start that stops at one of the two checks does one thing only. *)
Lemma main_stopped (os : Startup) :
  (forall file, dotenv os = Ok file ->
     os_Getenv (environ os ∪ file) "SANITY_API_URL" = EmptyString) ->
  exists line, trace os = [EvFatal line].
Proof.
  intros Hno. unfold trace.
  destruct (dotenv os) as [file|err] eqn:Hdotenv.
  - rewrite (main_without_url os (environ os ∪ file)).
    + by eexists.
    + unfold godotenv_Load. by rewrite Hdotenv.
    + by apply Hno.
  - unfold main, godotenv_Load. rewrite Hdotenv. by eexists.
Qed.

(** No listening without a loaded [.env] and a non-empty URL. *)
Lemma listens_only_when_started (os : Startup) (addr : string) :
  EvListenAndServe addr ∈ trace os ->
  exists file, dotenv os = Ok file
               /\ os_Getenv (environ os ∪ file) "SANITY_API_URL"
                  <> EmptyString.
Proof.
  intros Hin.
  destruct (dotenv os) as [file|err] eqn:Hdotenv.
  - exists file. split; [done|]. intros Hempty.
    destruct (main_stopped os) as [line Htrace].
    { intros file' Hfile'. assert (file' = file) as -> by congruence.
      exact Hempty. }
    rewrite Htrace in Hin. apply list_elem_of_singleton in Hin. discriminate.
  - destruct (main_stopped os) as [line Htrace].
    { intros file' Hfile'. congruence. }
    rewrite Htrace in Hin. apply list_elem_of_singleton in Hin. discriminate.
Qed.

(** X10.  The process gets to [http.ListenAndServe] exactly when the
    [.env] file loads and [SANITY_API_URL], looked up after the load, is
    not empty: a variable that is set but empty stops the start like a
    missing one. *)
Theorem main_listens_iff (os : Startup) :
  (exists addr, EvListenAndServe addr ∈ trace os)
  <-> exists file, dotenv os = Ok file
                   /\ os_Getenv (environ os ∪ file) "SANITY_API_URL"
                      <> EmptyString.
Proof.
  split.
  - intros [addr Hin]. by eapply listens_only_when_started.
  - intros (file & Hdotenv & Hurl).
    rewrite (main_started os file Hdotenv Hurl).
    eexists. apply elem_of_app. left.
    do 4 apply list_elem_of_further. apply list_elem_of_here.
Qed.

(** X11.  Whenever the process listens, the address is a colon followed
    by the value of [PORT] after the [.env] load, and by [8000] when
    [PORT] is not set or is empty. *)
Theorem main_listen_address (os : Startup) (addr : string) :
  EvListenAndServe addr ∈ trace os ->
  exists file, dotenv os = Ok file
               /\ addr = ":" +:+ listen_port (environ os ∪ file).
Proof.
  intros Hin.
  destruct (listens_only_when_started os addr Hin)
    as (file & Hdotenv & Hurl).
  exists file. split; [done|].
  rewrite (main_started os file Hdotenv Hurl) in Hin.
  unfold route_list, route_slug in Hin.
  apply elem_of_app in Hin as [Hin|Hin].
  - rewrite !elem_of_cons, elem_of_nil in Hin.
    destruct Hin as [Hin|[Hin|[Hin|[Hin|[Hin|[]]]]]]; try discriminate.
    by injection Hin.
  - destruct (listen_error os).
    + apply list_elem_of_singleton in Hin. discriminate.
    + by apply elem_of_nil in Hin.
Qed.

Lemma main_listens_iff_witness :
  exists addr, EvListenAndServe addr ∈ trace Sample.os_port_taken.
Proof.
  apply (main_listens_iff Sample.os_port_taken).
  exists ∅. split; [reflexivity|]. vm_compute. discriminate.
Defined.

Lemma main_listen_address_witness :
  exists file, dotenv Sample.os_ok = Ok file
               /\ ":8000" = ":" +:+ listen_port (environ Sample.os_ok ∪ file).
Proof.
  apply (main_listen_address Sample.os_ok ":8000").
  vm_compute. do 4 apply list_elem_of_further. apply list_elem_of_here.
Defined.

(** X12.  Wherever [http.ListenAndServe] stands in a run, both routes
    have been registered and the refresher has been started with a
    non-empty URL before it, and nothing comes after it except the
    [log.Fatal] of the error it returned. *)
Theorem main_routes_before_listen (os : Startup) (addr : string)
    (before after : list Event) :
  trace os = before ++ EvListenAndServe addr :: after ->
  route_list ∈ before
  /\ route_slug ∈ before
  /\ (exists url, url <> EmptyString /\ EvGoRefresher url ∈ before)
  /\ after = match listen_error os with
             | Some err => [EvFatal err]
             | None => []
             end.
Proof.
  intros Htrace.
  assert (EvListenAndServe addr ∈ trace os) as Hin.
  { rewrite Htrace. apply elem_of_app. right. by left. }
  destruct (listens_only_when_started os addr Hin)
    as (file & Hdotenv & Hurl).
  rewrite (main_started os file Hdotenv Hurl) in Htrace.
  unfold route_list, route_slug in *.
  destruct before as [|e1 [|e2 [|e3 [|e4 [|e5 rest]]]]];
    simpl in Htrace; try discriminate.
  - injection Htrace as <- <- <- <- _ Hafter.
    split_and!.
    + by left.
    + right. by left.
    + eexists. split; [exact Hurl|]. do 2 right. by left.
    + done.
  - injection Htrace as _ _ _ _ _ Htail.
    destruct (listen_error os), rest as [|? [|? ?]]; discriminate.
Qed.

Lemma main_routes_before_listen_witness :
  let before :=
    [route_list; route_slug; EvGoRefresher Sample.api;
     EvPrintln "Server is running on port: 9000"] in
  let after := [EvFatal "listen tcp :9000: bind: address already in use"] in
  route_list ∈ before
  /\ route_slug ∈ before
  /\ (exists url, url <> EmptyString /\ EvGoRefresher url ∈ before)
  /\ after = match listen_error Sample.os_port_taken with
             | Some err => [EvFatal err]
             | None => []
             end.
Proof.
  intros before after.
  apply (main_routes_before_listen Sample.os_port_taken ":9000" before after).
  reflexivity.
Defined.

(** X13.  The URL the refresher is started with is never empty, and it is
    the value of [SANITY_API_URL] in the process environment when the
    variable is set there; the [.env] file supplies it only when the
    environment does not have the variable. *)
Theorem refresher_url_origin (os : Startup) (url : string) :
  EvGoRefresher url ∈ trace os ->
  url <> EmptyString
  /\ (environ os !! "SANITY_API_URL" = Some url
      \/ (environ os !! "SANITY_API_URL" = None
          /\ exists file, dotenv os = Ok file
                          /\ file !! "SANITY_API_URL" = Some url)).
Proof.
  intros Hin.
  assert (exists file,
            dotenv os = Ok file
            /\ os_Getenv (environ os ∪ file) "SANITY_API_URL" <> EmptyString)
    as (file & Hdotenv & Hurl).
  { destruct (dotenv os) as [file|err] eqn:Hdotenv.
    - exists file. split; [done|]. intros Hempty.
      destruct (main_stopped os) as [line Htrace].
      { intros file' Hfile'. assert (file' = file) as -> by congruence.
        exact Hempty. }
      rewrite Htrace in Hin. apply list_elem_of_singleton in Hin. discriminate.
    - destruct (main_stopped os) as [line Htrace].
      { intros file' Hfile'. congruence. }
      rewrite Htrace in Hin. apply list_elem_of_singleton in Hin. discriminate. }
  rewrite (main_started os file Hdotenv Hurl) in Hin.
  unfold route_list, route_slug in Hin.
  assert (url = os_Getenv (environ os ∪ file) "SANITY_API_URL") as Heq.
  { apply elem_of_app in Hin as [Hin|Hin].
    - rewrite !elem_of_cons, elem_of_nil in Hin.
      destruct Hin as [Hin|[Hin|[Hin|[Hin|[Hin|[]]]]]]; try discriminate.
      by injection Hin.
    - destruct (listen_error os).
      + apply list_elem_of_singleton in Hin. discriminate.
      + by apply elem_of_nil in Hin. }
  split; [by rewrite Heq|].
  unfold os_Getenv in Heq, Hurl.
  destruct ((environ os ∪ file) !! "SANITY_API_URL") as [v|] eqn:Hlookup;
    simpl in *; [|done].
  subst v.
  apply lookup_union_Some_raw in Hlookup as [Henv|[Henv Hfile]].
  - by left.
  - right. split; [done|]. by exists file.
Qed.

Lemma refresher_url_origin_witness :
  Sample.api <> EmptyString
  /\ (environ Sample.os_port_taken !! "SANITY_API_URL" = Some Sample.api
      \/ (environ Sample.os_port_taken !! "SANITY_API_URL" = None
          /\ exists file, dotenv Sample.os_port_taken = Ok file
                          /\ file !! "SANITY_API_URL" = Some Sample.api)).
Proof.
  apply (refresher_url_origin Sample.os_port_taken Sample.api).
  vm_compute. do 2 apply list_elem_of_further. apply list_elem_of_here.
Defined.

(** ** Once allocated, always allocated *)

Section AllocatedSnapshot.

Variable unmarshalProperty : json -> result Property.

Lemma refreshCycle_allocated (sanityAPI : string) (c : Cycle) (st : State)
    (items : list Property) :
  properties st = mkSlice items ->
  exists items',
    properties (refreshCycle unmarshalProperty sanityAPI c st)
    = mkSlice items'.
Proof.
  intros Hst.
  destruct (Delivers_or_nothing (cycle_net c (request_url sanityAPI)))
    as [[propertiesData Hd]|Hn].
  - rewrite (refreshCycle_delivers unmarshalProperty _ _ _ _ Hd). by eexists.
  - rewrite (refreshCycle_nothing unmarshalProperty _ _ _ Hn), Hst.
    by eexists.
Qed.

(** X14.  Once a refresh has installed a slice, no later turn of the
    refresher loop makes [properties] nil again, whatever the upstream
    does: from then on the list route never writes [null]. *)
Theorem refresher_never_back_to_nil (sanityAPI : string)
    (cycles : list Cycle) (st : State) (items : list Property) :
  properties st = mkSlice items ->
  let st' := refresher unmarshalProperty sanityAPI cycles st in
  (exists items', properties st' = mkSlice items')
  /\ serve_list st' <> json_response (Some JNull).
Proof.
  intros Hst st'.
  assert (exists items', properties st' = mkSlice items') as [items' Hst'].
  { subst st'. revert st items Hst.
    induction cycles as [|c cycles IH]; intros st items Hst.
    - by exists items.
    - destruct (refreshCycle_allocated sanityAPI c st items Hst)
        as [items1 Hst1].
      exact (IH _ items1 Hst1). }
  split; [by exists items'|].
  rewrite serve_list_response, Hst'. simpl.
  intros Heq. apply json_response_inj in Heq.
  destruct (Marshal.array_ Marshal.property items'); discriminate.
Qed.

End AllocatedSnapshot.

Lemma refresher_never_back_to_nil_witness :
  let st' :=
    refresher Sample.unmarshalProperty Sample.api
      [mkCycle Sample.upstream_down "30s";
       mkCycle Sample.upstream_null_result "1s"]
      Sample.served in
  (exists items', properties st' = mkSlice items')
  /\ serve_list st' <> json_response (Some JNull).
Proof.
  apply (refresher_never_back_to_nil Sample.unmarshalProperty Sample.api
           [mkCycle Sample.upstream_down "30s";
            mkCycle Sample.upstream_null_result "1s"]
           Sample.served
           [Sample.p_gardenHeights; Sample.p_riverside;
            Sample.p_gardenHeights2]).
  reflexivity.
Defined.

(** ** The escaped query *)

Lemma upperhex_unreserved (c : ascii) :
  unreserved (upperhex (N.shiftr (N_of_ascii c) 4)) = true
  /\ unreserved (upperhex (N.land (N_of_ascii c) 15)) = true.
Proof.
  destruct c as [[] [] [] [] [] [] [] []]; split; vm_compute; reflexivity.
Qed.

(** X15.  Whatever the text, its escaped form is made of letters, digits,
    [-_.~], [+] and [%] only: the query the refresher appends to the API
    URL holds no space, quote, bracket or other reserved character. *)
Theorem QueryEscape_safe (s : string) :
  Forall (fun c => query_safe c = true)
    (list_ascii_of_string (QueryEscape s)).
Proof.
  induction s as [|c s IH]; simpl; [constructor|].
  destruct (unreserved c) eqn:Hc.
  - simpl. constructor; [|done]. unfold query_safe. by rewrite Hc.
  - destruct (Ascii.eqb c " ") eqn:Hsp; simpl.
    + by constructor.
    + destruct (upperhex_unreserved c) as [Hhi Hlo].
      unfold query_safe.
      repeat constructor; [by rewrite Hhi|by rewrite Hlo|done].
Qed.
